(** * X86ATTInstPrinter: AT&T-style rendering of MCInst

    A shallow embedding of llvm/lib/Target/X86/InstPrinter/X86ATTInstPrinter.cpp.
    The printer writes to an output stream and, when one is attached, to a
    comment stream; it keeps one mutable field, HasCustomInstComment.  The
    embedding threads these three through a state monad whose second outcome
    is a process abort (a failed assert), carrying the diagnostic and the state
    reached.  Assertions are modelled as checked, the way the source states
    them and a build without NDEBUG runs them. *)

From Stdlib Require Import ZArith NArith List String Ascii Bool Lia.
From Stdlib Require Import DecimalString.
Import ListNotations.
Local Open Scope string_scope.

(** ** Machine integers *)

(** Unsigned 32-bit wrap-around (the C++ type unsigned). *)
Definition u32 (n : N) : N := (n mod 2 ^ 32)%N.

(** The value left in an unsigned variable by a decrement. *)
Definition dec32 (n : N) : N := ((n + (2 ^ 32 - 1)) mod 2 ^ 32)%N.

(** Truncating casts of an int64_t. *)
Definition int16_t (v : Z) : Z := ((v + 2 ^ 15) mod 2 ^ 16 - 2 ^ 15)%Z.
Definition int32_t (v : Z) : Z := ((v + 2 ^ 31) mod 2 ^ 32 - 2 ^ 31)%Z.
Definition uint16_t (v : Z) : N := Z.to_N (v mod 2 ^ 16).
Definition uint32_t (v : Z) : N := Z.to_N (v mod 2 ^ 32).
Definition uint64_t (v : Z) : N := Z.to_N (v mod 2 ^ 64).

(** The values an int64_t holds. *)
Definition int64_range (v : Z) : Prop := (- 2 ^ 63 <= v < 2 ^ 63)%Z.

(** ** Text *)

Definition tab : string := String "009"%char "".
Definition newline : string := String "010"%char "".

(** raw_ostream << unsigned: plain decimal. *)
Definition decimal (n : N) : string := NilZero.string_of_uint (N.to_uint n).

Definition hexDigitUpper (d : N) : ascii :=
  match d with
  | 0 => "0" | 1 => "1" | 2 => "2" | 3 => "3" | 4 => "4" | 5 => "5"
  | 6 => "6" | 7 => "7" | 8 => "8" | 9 => "9" | 10 => "A" | 11 => "B"
  | 12 => "C" | 13 => "D" | 14 => "E" | _ => "F"
  end%N%char.

Fixpoint hexDigits (fuel : nat) (n : N) (acc : string) : string :=
  match fuel with
  | O => acc
  | S fuel' =>
      let acc' := String (hexDigitUpper (n mod 16)) acc in
      if (n / 16 =? 0)%N then acc' else hexDigits fuel' (n / 16) acc'
  end.

(** The conversion %X of printf: upper-case hexadecimal, no padding. *)
Definition upperHex (n : N) : string := hexDigits (S (N.size_nat n)) n "".

(** format("imm = 0x%" PRIX<w> "\n", value) *)
Definition format_imm_hex (value : N) : string :=
  "imm = 0x" ++ upperHex value ++ newline.

(** ** MCInst and its operands (llvm/MC/MCInst.h) *)

(** The opcodes the printer names, and every other one. *)
Inductive X86Opcode : Set :=
  | VPCOMBmi | VPCOMBri | VPCOMDmi | VPCOMDri | VPCOMQmi | VPCOMQri
  | VPCOMUBmi | VPCOMUBri | VPCOMUDmi | VPCOMUDri | VPCOMUQmi | VPCOMUQri
  | VPCOMUWmi | VPCOMUWri | VPCOMWmi | VPCOMWri | VPCMPBZ128rmi
  | VPCMPBZ128rri | VPCMPBZ256rmi | VPCMPBZ256rri | VPCMPBZrmi | VPCMPBZrri
  | VPCMPDZ128rmi | VPCMPDZ128rri | VPCMPDZ256rmi | VPCMPDZ256rri
  | VPCMPDZrmi | VPCMPDZrri | VPCMPQZ128rmi | VPCMPQZ128rri | VPCMPQZ256rmi
  | VPCMPQZ256rri | VPCMPQZrmi | VPCMPQZrri | VPCMPUBZ128rmi
  | VPCMPUBZ128rri | VPCMPUBZ256rmi | VPCMPUBZ256rri | VPCMPUBZrmi
  | VPCMPUBZrri | VPCMPUDZ128rmi | VPCMPUDZ128rri | VPCMPUDZ256rmi
  | VPCMPUDZ256rri | VPCMPUDZrmi | VPCMPUDZrri | VPCMPUQZ128rmi
  | VPCMPUQZ128rri | VPCMPUQZ256rmi | VPCMPUQZ256rri | VPCMPUQZrmi
  | VPCMPUQZrri | VPCMPUWZ128rmi | VPCMPUWZ128rri | VPCMPUWZ256rmi
  | VPCMPUWZ256rri | VPCMPUWZrmi | VPCMPUWZrri | VPCMPWZ128rmi
  | VPCMPWZ128rri | VPCMPWZ256rmi | VPCMPWZ256rri | VPCMPWZrmi | VPCMPWZrri
  | VPCMPBZ128rmik | VPCMPBZ128rrik | VPCMPBZ256rmik | VPCMPBZ256rrik
  | VPCMPBZrmik | VPCMPBZrrik | VPCMPDZ128rmik | VPCMPDZ128rrik
  | VPCMPDZ256rmik | VPCMPDZ256rrik | VPCMPDZrmik | VPCMPDZrrik
  | VPCMPQZ128rmik | VPCMPQZ128rrik | VPCMPQZ256rmik | VPCMPQZ256rrik
  | VPCMPQZrmik | VPCMPQZrrik | VPCMPUBZ128rmik | VPCMPUBZ128rrik
  | VPCMPUBZ256rmik | VPCMPUBZ256rrik | VPCMPUBZrmik | VPCMPUBZrrik
  | VPCMPUDZ128rmik | VPCMPUDZ128rrik | VPCMPUDZ256rmik | VPCMPUDZ256rrik
  | VPCMPUDZrmik | VPCMPUDZrrik | VPCMPUQZ128rmik | VPCMPUQZ128rrik
  | VPCMPUQZ256rmik | VPCMPUQZ256rrik | VPCMPUQZrmik | VPCMPUQZrrik
  | VPCMPUWZ128rmik | VPCMPUWZ128rrik | VPCMPUWZ256rmik | VPCMPUWZ256rrik
  | VPCMPUWZrmik | VPCMPUWZrrik | VPCMPWZ128rmik | VPCMPWZ128rrik
  | VPCMPWZ256rmik | VPCMPWZ256rrik | VPCMPWZrmik | VPCMPWZrrik
  | VPCMPDZ128rmib | VPCMPDZ128rmibk | VPCMPDZ256rmib | VPCMPDZ256rmibk
  | VPCMPDZrmib | VPCMPDZrmibk | VPCMPQZ128rmib | VPCMPQZ128rmibk
  | VPCMPQZ256rmib | VPCMPQZ256rmibk | VPCMPQZrmib | VPCMPQZrmibk
  | VPCMPUDZ128rmib | VPCMPUDZ128rmibk | VPCMPUDZ256rmib | VPCMPUDZ256rmibk
  | VPCMPUDZrmib | VPCMPUDZrmibk | VPCMPUQZ128rmib | VPCMPUQZ128rmibk
  | VPCMPUQZ256rmib | VPCMPUQZ256rmibk | VPCMPUQZrmib | VPCMPUQZrmibk
  | CALLpcrel32 | DATA16_PREFIX
  | OtherOpcode (id : N).

(** The case labels of the first group of printVecCompareInstr. *)
Definition isVPCOM (Opc : X86Opcode) : bool :=
  match Opc with
  | VPCOMBmi | VPCOMBri | VPCOMDmi | VPCOMDri | VPCOMQmi | VPCOMQri
  | VPCOMUBmi | VPCOMUBri | VPCOMUDmi | VPCOMUDri | VPCOMUQmi | VPCOMUQri
  | VPCOMUWmi | VPCOMUWri | VPCOMWmi | VPCOMWri => true
  | _ => false
  end.

(** The case labels of its second group. *)
Definition isVPCMP (Opc : X86Opcode) : bool :=
  match Opc with
  | VPCMPBZ128rmi | VPCMPBZ128rri | VPCMPBZ256rmi | VPCMPBZ256rri
  | VPCMPBZrmi | VPCMPBZrri | VPCMPDZ128rmi | VPCMPDZ128rri | VPCMPDZ256rmi
  | VPCMPDZ256rri | VPCMPDZrmi | VPCMPDZrri | VPCMPQZ128rmi | VPCMPQZ128rri
  | VPCMPQZ256rmi | VPCMPQZ256rri | VPCMPQZrmi | VPCMPQZrri | VPCMPUBZ128rmi
  | VPCMPUBZ128rri | VPCMPUBZ256rmi | VPCMPUBZ256rri | VPCMPUBZrmi
  | VPCMPUBZrri | VPCMPUDZ128rmi | VPCMPUDZ128rri | VPCMPUDZ256rmi
  | VPCMPUDZ256rri | VPCMPUDZrmi | VPCMPUDZrri | VPCMPUQZ128rmi
  | VPCMPUQZ128rri | VPCMPUQZ256rmi | VPCMPUQZ256rri | VPCMPUQZrmi
  | VPCMPUQZrri | VPCMPUWZ128rmi | VPCMPUWZ128rri | VPCMPUWZ256rmi
  | VPCMPUWZ256rri | VPCMPUWZrmi | VPCMPUWZrri | VPCMPWZ128rmi
  | VPCMPWZ128rri | VPCMPWZ256rmi | VPCMPWZ256rri | VPCMPWZrmi | VPCMPWZrri
  | VPCMPBZ128rmik | VPCMPBZ128rrik | VPCMPBZ256rmik | VPCMPBZ256rrik
  | VPCMPBZrmik | VPCMPBZrrik | VPCMPDZ128rmik | VPCMPDZ128rrik
  | VPCMPDZ256rmik | VPCMPDZ256rrik | VPCMPDZrmik | VPCMPDZrrik
  | VPCMPQZ128rmik | VPCMPQZ128rrik | VPCMPQZ256rmik | VPCMPQZ256rrik
  | VPCMPQZrmik | VPCMPQZrrik | VPCMPUBZ128rmik | VPCMPUBZ128rrik
  | VPCMPUBZ256rmik | VPCMPUBZ256rrik | VPCMPUBZrmik | VPCMPUBZrrik
  | VPCMPUDZ128rmik | VPCMPUDZ128rrik | VPCMPUDZ256rmik | VPCMPUDZ256rrik
  | VPCMPUDZrmik | VPCMPUDZrrik | VPCMPUQZ128rmik | VPCMPUQZ128rrik
  | VPCMPUQZ256rmik | VPCMPUQZ256rrik | VPCMPUQZrmik | VPCMPUQZrrik
  | VPCMPUWZ128rmik | VPCMPUWZ128rrik | VPCMPUWZ256rmik | VPCMPUWZ256rrik
  | VPCMPUWZrmik | VPCMPUWZrrik | VPCMPWZ128rmik | VPCMPWZ128rrik
  | VPCMPWZ256rmik | VPCMPWZ256rrik | VPCMPWZrmik | VPCMPWZrrik
  | VPCMPDZ128rmib | VPCMPDZ128rmibk | VPCMPDZ256rmib | VPCMPDZ256rmibk
  | VPCMPDZrmib | VPCMPDZrmibk | VPCMPQZ128rmib | VPCMPQZ128rmibk
  | VPCMPQZ256rmib | VPCMPQZ256rmibk | VPCMPQZrmib | VPCMPQZrmibk
  | VPCMPUDZ128rmib | VPCMPUDZ128rmibk | VPCMPUDZ256rmib | VPCMPUDZ256rmibk
  | VPCMPUDZrmib | VPCMPUDZrmibk | VPCMPUQZ128rmib | VPCMPUQZ128rmibk
  | VPCMPUQZ256rmib | VPCMPUQZ256rmibk | VPCMPUQZrmib | VPCMPUQZrmibk => true
  | _ => false
  end.

Section MC.
Variable MCExpr : Type.

(** Modelled from the spec: MCOperand (llvm/MC/MCInst.h, not under src/), a
    tagged union over register, immediate and symbolic expression.  The
    other tags of the union (invalid, floating-point immediate,
    sub-instruction) are the kinds the assertion of printOperand rules out. *)
Inductive MCOperand : Type :=
  | Invalid
  | Reg (RegVal : N)
  | Imm (ImmVal : Z)
  | FPImm (FPImmVal : Z)
  | Expr (ExprVal : MCExpr)
  | Inst (InstVal : N).

Record MCInst : Type := mkMCInst {
  getOpcode : X86Opcode;
  Operands : list MCOperand
}.

End MC.

Arguments Invalid {MCExpr}.
Arguments Reg {MCExpr} RegVal.
Arguments Imm {MCExpr} ImmVal.
Arguments FPImm {MCExpr} FPImmVal.
Arguments Expr {MCExpr} ExprVal.
Arguments Inst {MCExpr} InstVal.
Arguments mkMCInst {MCExpr} getOpcode Operands.
Arguments getOpcode {MCExpr} m.
Arguments Operands {MCExpr} m.

Definition getNumOperands {MCExpr} (MI : MCInst MCExpr) : N :=
  N.of_nat (List.length (Operands MI)).

(** The operand stored at an index, if there is one. *)
Definition operand {MCExpr} (MI : MCInst MCExpr) (i : N) : option (MCOperand MCExpr) :=
  nth_error (Operands MI) (N.to_nat i).

Definition isImm {MCExpr} (Op : MCOperand MCExpr) : bool :=
  match Op with Imm _ => true | _ => false end.
Definition isExpr {MCExpr} (Op : MCOperand MCExpr) : bool :=
  match Op with Expr _ => true | _ => false end.

(** Modelled from the spec: X86::AddrBaseReg and its siblings
    (MCTargetDesc/X86BaseInfo.h, not under src/), the offsets of the five
    sub-operands of a memory reference: base at +0, scale at +1, index at +2,
    displacement at +3, segment at +4. *)
Definition AddrBaseReg : N := 0.
Definition AddrScaleAmt : N := 1.
Definition AddrIndexReg : N := 2.
Definition AddrDisp : N := 3.
Definition AddrSegmentReg : N := 4.

(** Subtarget features read by the printer. *)
Inductive X86Feature : Set := Mode64Bit | Mode32Bit | Mode16Bit | OtherFeature (id : N).
Definition FeatureBitset : Type := X86Feature -> bool.

(** ** Printer state and the printing monad *)

Record PrinterState : Type := mkState {
  OS : string;                      (* text written to the output stream *)
  CommentStream : option string;    (* None: no comment stream attached *)
  HasCustomInstComment : bool
}.

Inductive Outcome (A : Type) : Type :=
  | Returned (a : A) (s : PrinterState)
  | Aborted (diagnostic : string) (s : PrinterState).
Arguments Returned {A} a s.
Arguments Aborted {A} diagnostic s.

Definition M (A : Type) : Type := PrinterState -> Outcome A.

Definition ret {A} (a : A) : M A := fun s => Returned a s.

Definition bind {A B} (m : M A) (k : A -> M B) : M B :=
  fun s => match m s with
           | Returned a s' => k a s'
           | Aborted d s' => Aborted d s'
           end.

Notation "x <- m ;; k" := (bind m (fun x => k))
  (at level 61, m at next level, right associativity).
Notation "m ;; k" := (bind m (fun _ => k))
  (at level 61, right associativity).

(** A failed assert: the process stops with the diagnostic. *)
Definition abort {A} (diagnostic : string) : M A := fun s => Aborted diagnostic s.

(** The state after [text] went to the output stream. *)
Definition emit (s : PrinterState) (text : string) : PrinterState :=
  mkState (OS s ++ text) (CommentStream s) (HasCustomInstComment s).

(** Writing to the output stream, O << text. *)
Definition write (text : string) : M unit := fun s => Returned tt (emit s text).

(** The state after [text] went to the comment stream, if one is attached. *)
Definition annotate (s : PrinterState) (text : string) : PrinterState :=
  mkState (OS s)
          (match CommentStream s with Some c => Some (c ++ text) | None => None end)
          (HasCustomInstComment s).

(** Writing to the comment stream, *CommentStream << text. *)
Definition comment (text : string) : M unit := fun s => Returned tt (annotate s text).

Definition setHasCustomInstComment (b : bool) (s : PrinterState) : PrinterState :=
  mkState (OS s) (CommentStream s) b.

(** Modelled from the spec: MCInst::getOperand (llvm/MC/MCInst.h, not under
    src/).  An index past the operands is a contract violation and stops the
    process. *)
Definition getOperand {MCExpr} (MI : MCInst MCExpr) (i : N) : M (MCOperand MCExpr) :=
  match operand MI i with
  | Some Op => ret Op
  | None => abort "idx < size()"
  end.

(** Modelled from the spec: MCOperand::getReg and MCOperand::getImm
    (llvm/MC/MCInst.h, not under src/).  Asking an operand for a value its tag
    does not hold is a contract violation and stops the process. *)
Definition getReg {MCExpr} (Op : MCOperand MCExpr) : M N :=
  match Op with
  | Reg r => ret r
  | _ => abort "This is not a register operand!"
  end.

Definition getImm {MCExpr} (Op : MCOperand MCExpr) : M Z :=
  match Op with
  | Imm v => ret v
  | _ => abort "This is not an immediate"
  end.

(** ** What the printer is given *)

(** The renderers below the operand formatters: the expression renderer
    (MCExpr::print), the generated register-name table, the numeric formatter
    of MCInstPrinter (decimal or hexadecimal, by configuration), the markup
    switch, and the register id of the floating-point stack top. *)
Class Renderers (MCExpr : Type) : Type := {
  printExpr : MCExpr -> string;
  getRegisterName : N -> string;
  formatImm : Z -> string;
  UseMarkup : bool;
  ST0 : N
}.

(** The descriptor table with the X86II masks it is read through, and the
    printing routines defined outside this file: the comment generator
    (X86InstComments), the generated alias matcher and per-opcode printer
    (X86GenAsmWriter.inc), the helpers of the common base class, and the sized
    memory formatters the class header declares. *)
Class Collaborators (MCExpr : Type) : Type := {
  TSFlags : X86Opcode -> N;
  FormMask : N;
  MRMSrcMem : N;
  EVEX_K : N;
  EVEX_B : N;
  VEX_W : N;
  VEX_L : N;
  EVEX_L2 : N;
  EmitAnyX86InstComments : MCInst MCExpr -> string * bool;
  printInstFlags : MCInst MCExpr -> M unit;
  printPCRelImm : MCInst MCExpr -> N -> M unit;
  printAliasInstr : MCInst MCExpr -> M bool;
  printInstruction : MCInst MCExpr -> M unit;
  printAnnotation : string -> M unit;
  printVPCOMMnemonic : MCInst MCExpr -> M unit;
  printVPCMPMnemonic : MCInst MCExpr -> M unit;
  printwordmem : MCInst MCExpr -> N -> M unit;
  printdwordmem : MCInst MCExpr -> N -> M unit;
  printqwordmem : MCInst MCExpr -> N -> M unit;
  printxmmwordmem : MCInst MCExpr -> N -> M unit;
  printymmwordmem : MCInst MCExpr -> N -> M unit;
  printzmmwordmem : MCInst MCExpr -> N -> M unit
}.

(** Desc.TSFlags & Mask, read as a condition. *)
Definition hasFlag (flags mask : N) : bool := negb (N.land flags mask =? 0)%N.

Definition isCALLpcrel32 (Opc : X86Opcode) : bool :=
  match Opc with CALLpcrel32 => true | _ => false end.
Definition isDATA16_PREFIX (Opc : X86Opcode) : bool :=
  match Opc with DATA16_PREFIX => true | _ => false end.

(** f(MI, CurOp--, OS): the call sees the cursor's value, the cursor is
    decremented. *)
Definition postDecrement (f : N -> M unit) (CurOp : N) : M N :=
  f CurOp ;; ret (dec32 CurOp).

(** ** The printer *)

Section Printer.
Context {MCExpr : Type} {R : Renderers MCExpr} {C : Collaborators MCExpr}.

(** Modelled from the spec: MCInstPrinter::markup (MC/MCInstPrinter.cpp, not
    under src/): optional start and end markers around a syntactic unit,
    absent unless markup is switched on. *)
Definition markup (s : string) : string := if UseMarkup then s else "".

Definition printRegName (RegNo : N) : M unit :=
  write (markup "<reg:" ++ "%" ++ getRegisterName RegNo ++ markup ">").

Definition printOperand (MI : MCInst MCExpr) (OpNo : N) : M unit :=
  Op <- getOperand MI OpNo ;;
  match Op with
  | Reg RegNo => printRegName RegNo
  | Imm ImmV =>
      (* Print immediates as signed values. *)
      write (markup "<imm:" ++ "$" ++ formatImm ImmV ++ markup ">") ;;
      (fun s =>
         match CommentStream s with
         | Some _ =>
             if negb (HasCustomInstComment s) && ((ImmV >? 255) || (ImmV <? -256))%Z
             then
               (* Don't print unnecessary hex sign bits. *)
               if (ImmV =? int16_t ImmV)%Z
               then comment (format_imm_hex (uint16_t ImmV)) s
               else if (ImmV =? int32_t ImmV)%Z
               then comment (format_imm_hex (uint32_t ImmV)) s
               else comment (format_imm_hex (uint64_t ImmV)) s
             else ret tt s
         | None => ret tt s
         end)
  | Expr E =>
      write (markup "<imm:" ++ "$") ;;
      write (printExpr E) ;;
      write (markup ">")
  | _ => abort "unknown operand kind in printOperand"
  end.

(** Modelled from the spec: printOptionalSegReg of the common base class
    (X86InstPrinterCommon.cpp, not under src/): the segment prefix, written
    if the segment sub-operand names a real register. *)
Definition printOptionalSegReg (MI : MCInst MCExpr) (OpNo : N) : M unit :=
  Op <- getOperand MI OpNo ;;
  SegReg <- getReg Op ;;
  if (SegReg =? 0)%N then ret tt
  else printOperand MI OpNo ;; write ":".

Definition printMemReference (MI : MCInst MCExpr) (Op : N) : M unit :=
  BaseReg <- getOperand MI (u32 (Op + AddrBaseReg)) ;;
  IndexReg <- getOperand MI (u32 (Op + AddrIndexReg)) ;;
  DispSpec <- getOperand MI (u32 (Op + AddrDisp)) ;;
  write (markup "<mem:") ;;
  (* If this has a segment register, print it. *)
  printOptionalSegReg MI (u32 (Op + AddrSegmentReg)) ;;
  match DispSpec with
  | Imm DispVal =>
      if negb (DispVal =? 0)%Z then write (formatImm DispVal)
      else
        Index <- getReg IndexReg ;;
        if negb (Index =? 0)%N then ret tt
        else
          Base <- getReg BaseReg ;;
          if negb (Base =? 0)%N then ret tt
          else write (formatImm DispVal)
  | Expr E => write (printExpr E)
  | _ => abort "non-immediate displacement for LEA?"
  end ;;
  Index <- getReg IndexReg ;;
  hasRegs <- (if negb (Index =? 0)%N then ret true
              else Base <- getReg BaseReg ;; ret (negb (Base =? 0)%N)) ;;
  (if hasRegs : bool then
     write "(" ;;
     Base <- getReg BaseReg ;;
     (if negb (Base =? 0)%N
      then printOperand MI (u32 (Op + AddrBaseReg)) else ret tt) ;;
     Index <- getReg IndexReg ;;
     (if negb (Index =? 0)%N then
        write "," ;;
        printOperand MI (u32 (Op + AddrIndexReg)) ;;
        ScaleOp <- getOperand MI (u32 (Op + AddrScaleAmt)) ;;
        Scale <- getImm ScaleOp ;;
        let ScaleVal := uint32_t Scale in
        if negb (ScaleVal =? 1)%N
        then (* never printed in hex. *)
          write ("," ++ markup "<imm:" ++ decimal ScaleVal ++ markup ">")
        else ret tt
      else ret tt) ;;
     write ")"
   else ret tt) ;;
  write (markup ">").

Definition printSrcIdx (MI : MCInst MCExpr) (Op : N) : M unit :=
  write (markup "<mem:") ;;
  (* If this has a segment register, print it. *)
  printOptionalSegReg MI (u32 (Op + 1)) ;;
  write "(" ;;
  printOperand MI Op ;;
  write ")" ;;
  write (markup ">").

Definition printDstIdx (MI : MCInst MCExpr) (Op : N) : M unit :=
  write (markup "<mem:") ;;
  write "%es:(" ;;
  printOperand MI Op ;;
  write ")" ;;
  write (markup ">").

Definition printMemOffset (MI : MCInst MCExpr) (Op : N) : M unit :=
  DispSpec <- getOperand MI Op ;;
  write (markup "<mem:") ;;
  (* If this has a segment register, print it. *)
  printOptionalSegReg MI (u32 (Op + 1)) ;;
  match DispSpec with
  | Imm DispVal => write (formatImm DispVal)
  | Expr E => write (printExpr E)
  | _ => abort "non-immediate displacement?"
  end ;;
  write (markup ">").

Definition printU8Imm (MI : MCInst MCExpr) (Op : N) : M unit :=
  Operand <- getOperand MI Op ;;
  if isExpr Operand then printOperand MI Op
  else
    (* The operands of the << chain are evaluated from the left: the marker
       and the dollar sign are on the stream when getImm is called. *)
    write (markup "<imm:" ++ "$") ;;
    ImmV <- getImm Operand ;;
    write (formatImm (Z.land ImmV 255) ++ markup ">").

Definition printSTiRegOperand (MI : MCInst MCExpr) (OpNo : N) : M unit :=
  Op <- getOperand MI OpNo ;;
  RegNo <- getReg Op ;;
  (* Override the default printing to print st(0) instead st. *)
  if (RegNo =? ST0)%N
  then write (markup "<reg:" ++ "%st(0)" ++ markup ">")
  else printRegName RegNo.

Definition printVecCompareInstr (MI : MCInst MCExpr) : M bool :=
  if (getNumOperands MI =? 0)%N then ret false
  else
    Last <- getOperand MI (getNumOperands MI - 1) ;;
    match Last with
    | Imm ImmV =>
        let Desc := TSFlags (getOpcode MI) in
        (* Custom print the vector compare instructions to get the immediate
           translated into the mnemonic. *)
        if isVPCOM (getOpcode MI) then
          if ((ImmV >=? 0) && (ImmV <=? 7))%Z then
            write tab ;;
            printVPCOMMnemonic MI ;;
            (if (N.land Desc FormMask =? MRMSrcMem)%N
             then printxmmwordmem MI 2
             else printOperand MI 2) ;;
            write ", " ;;
            printOperand MI 1 ;;
            write ", " ;;
            printOperand MI 0 ;;
            ret true
          else ret false
        else if isVPCMP (getOpcode MI) then
          if (((ImmV >=? 0) && (ImmV <=? 2)) || ((ImmV >=? 4) && (ImmV <=? 6)))%Z then
            write tab ;;
            printVPCMPMnemonic MI ;;
            let CurOp : N := if hasFlag Desc EVEX_K then 3%N else 2%N in
            CurOp <-
              (if (N.land Desc FormMask =? MRMSrcMem)%N then
                 if hasFlag Desc EVEX_B then
                   (* Broadcast form.
                      Load size is based on W-bit as only D and Q are supported. *)
                   CurOp <- (if hasFlag Desc VEX_W
                             then postDecrement (printqwordmem MI) CurOp
                             else postDecrement (printdwordmem MI) CurOp) ;;
                   (* Print the number of elements broadcasted. *)
                   let NumElts : N :=
                     if hasFlag Desc EVEX_L2
                     then (if hasFlag Desc VEX_W then 8%N else 16%N)
                     else if hasFlag Desc VEX_L
                     then (if hasFlag Desc VEX_W then 4%N else 8%N)
                     else (if hasFlag Desc VEX_W then 2%N else 4%N) in
                   write ("{1to" ++ decimal NumElts ++ "}") ;;
                   ret CurOp
                 else
                   if hasFlag Desc EVEX_L2
                   then postDecrement (printzmmwordmem MI) CurOp
                   else if hasFlag Desc VEX_L
                   then postDecrement (printymmwordmem MI) CurOp
                   else postDecrement (printxmmwordmem MI) CurOp
               else postDecrement (printOperand MI) CurOp) ;;
            write ", " ;;
            CurOp <- postDecrement (printOperand MI) CurOp ;;
            write ", " ;;
            printOperand MI 0 ;;
            (if (0 <? CurOp)%N then
               (* Print mask operand. *)
               write " {" ;;
               CurOp <- postDecrement (printOperand MI) CurOp ;;
               write "}"
             else ret tt) ;;
            ret true
          else ret false
        else ret false
    | _ => ret false
    end.

(** The first statement of printInst: with a comment stream attached, the
    comment generator writes to it and its result becomes the flag. *)
Definition emitInstComments (MI : MCInst MCExpr) : M unit :=
  fun s =>
    match CommentStream s with
    | Some _ =>
        let (text, emitted) := EmitAnyX86InstComments MI in
        Returned tt (setHasCustomInstComment emitted (annotate s text))
    | None => Returned tt s
    end.

Definition printInst (MI : MCInst MCExpr) (Annot : string) (STI : FeatureBitset) : M unit :=
  (* If verbose assembly is enabled, we can print some informative comments. *)
  emitInstComments MI ;;
  printInstFlags MI ;;
  (if isCALLpcrel32 (getOpcode MI) && STI Mode64Bit then
     (* Output CALLpcrel32 as callq in 64-bit mode. *)
     write (tab ++ "callq" ++ tab) ;;
     printPCRelImm MI 0
   else if isDATA16_PREFIX (getOpcode MI) && STI Mode16Bit then
     write (tab ++ "data32")
   else
     (* Try to print any aliases first. *)
     alias <- printAliasInstr MI ;;
     if alias : bool then ret tt
     else
       compare <- printVecCompareInstr MI ;;
       if compare : bool then ret tt
       else printInstruction MI) ;;
  (* Next always print the annotation. *)
  printAnnotation Annot.

End Printer.

(** ** A sample instantiation

    Enough renderers and collaborators to run the printer on concrete
    instructions: symbols as expressions, a handful of registers, and the
    decimal numeric formatter. *)

Definition sampleRegisterName (RegNo : N) : string :=
  match RegNo with
  | 1 => "rax" | 2 => "rbx" | 3 => "rcx" | 4 => "rdx" | 5 => "rsi"
  | 6 => "rdi" | 7 => "es" | 8 => "fs" | 9 => "xmm0" | 10 => "xmm1"
  | 11 => "zmm1" | 12 => "zmm2" | 13 => "k1" | 14 => "k2" | 15 => "st"
  | _ => "r" ++ decimal RegNo
  end%N.

(** Signed decimal, the numeric formatter's default. *)
Definition formatDec (v : Z) : string := NilZero.string_of_int (Z.to_int v).

(** Hexadecimal with a 0x prefix. *)
Definition formatHex (v : Z) : string :=
  if (v <? 0)%Z then "-0x" ++ upperHex (Z.to_N (- v)) else "0x" ++ upperHex (Z.to_N v).

Definition sampleRenderers : Renderers string :=
  {| printExpr := fun sym => sym;
     getRegisterName := sampleRegisterName;
     formatImm := formatDec;
     UseMarkup := false;
     ST0 := 15 |}.

Definition hexRenderers : Renderers string :=
  {| printExpr := fun sym => sym;
     getRegisterName := sampleRegisterName;
     formatImm := formatHex;
     UseMarkup := false;
     ST0 := 15 |}.

Definition markupRenderers : Renderers string :=
  {| printExpr := fun sym => sym;
     getRegisterName := sampleRegisterName;
     formatImm := formatDec;
     UseMarkup := true;
     ST0 := 15 |}.

(** Descriptor flags for a few opcodes, over sample positions of the X86II
    masks (the form in the low seven bits, one bit for each flag). *)
Definition sampleTSFlags (Opc : X86Opcode) : N :=
  match Opc with
  | VPCOMBmi => 33
  | VPCMPUDZrri => 49 + 4096
  | VPCMPUDZrrik => 49 + 4096 + 1024
  | VPCMPQZrmib => 33 + 256 + 2048 + 4096
  | VPCMPQZrmibk => 33 + 256 + 2048 + 4096 + 1024
  | VPCMPDZ128rmib => 33 + 2048
  | VPCMPDZ256rmi => 33 + 512
  | _ => 49
  end%N.

Definition sampleVPCMPComparison (ImmV : Z) : M unit :=
  match ImmV with
  | 0 => write "eq" | 1 => write "lt" | 2 => write "le"
  | 4 => write "neq" | 5 => write "nlt" | 6 => write "nle"
  | _ => abort "Invalid vpcmp immediate!"
  end%Z.

Definition sampleVPCOMComparison (ImmV : Z) : M unit :=
  match ImmV with
  | 0 => write "lt" | 1 => write "le" | 2 => write "gt" | 3 => write "ge"
  | 4 => write "eq" | 5 => write "neq" | 6 => write "false" | 7 => write "true"
  | _ => abort "Invalid vpcom immediate!"
  end%Z.

Definition sampleElement (Opc : X86Opcode) : string :=
  match Opc with
  | VPCMPQZrmib | VPCMPQZrmibk => "q"
  | VPCMPUDZrri | VPCMPUDZrrik => "ud"
  | VPCMPDZ128rmib | VPCMPDZ256rmi => "d"
  | _ => "b"
  end.

Definition sampleMnemonic (stem : string) (comparison : Z -> M unit)
    (MI : MCInst string) : M unit :=
  match nth_error (Operands MI) (List.length (Operands MI) - 1) with
  | Some (Imm ImmV) =>
      write stem ;; comparison ImmV ;; write (sampleElement (getOpcode MI) ++ tab)
  | _ => abort "no trailing immediate"
  end.

(** A memory formatter that names its size before the reference. *)
Definition sampleSizedMem (size : string) (MI : MCInst string) (Op : N) : M unit :=
  write size ;; printMemReference (R:=sampleRenderers) MI Op.

Fixpoint sampleOperandsDown (MI : MCInst string) (n : nat) : M unit :=
  match n with
  | O => ret tt
  | S k =>
      printOperand (R:=sampleRenderers) MI (N.of_nat k) ;;
      (match k with O => ret tt | S _ => write ", " end) ;;
      sampleOperandsDown MI k
  end.

Definition samplePCRelImm (MI : MCInst string) (OpNo : N) : M unit :=
  Op <- getOperand MI OpNo ;;
  match Op with
  | Imm v => write (formatDec v)
  | Expr sym => write sym
  | _ => abort "unknown pcrel immediate operand"
  end.

Definition sampleAnnotation (Annot : string) : M unit :=
  match Annot with
  | EmptyString => ret tt
  | _ => fun s => match CommentStream s with
                  | Some _ => comment (Annot ++ newline) s
                  | None => write (" # " ++ Annot) s
                  end
  end.

Definition sampleCollaborators : Collaborators string :=
  {| TSFlags := sampleTSFlags;
     FormMask := 127;
     MRMSrcMem := 33;
     EVEX_K := 1024;
     EVEX_B := 2048;
     VEX_W := 256;
     VEX_L := 512;
     EVEX_L2 := 4096;
     EmitAnyX86InstComments := fun MI =>
       match getOpcode MI with
       | OtherOpcode 1 => ("xmm0 = xmm1[0],xmm0[1]" ++ newline, true)
       | _ => ("", false)
       end;
     printInstFlags := fun _ => ret tt;
     printPCRelImm := samplePCRelImm;
     printAliasInstr := fun _ => ret false;
     printInstruction := fun MI =>
       write (tab ++ "insn" ++ tab) ;;
       sampleOperandsDown MI (List.length (Operands MI));
     printAnnotation := sampleAnnotation;
     printVPCOMMnemonic := sampleMnemonic "vpcom" sampleVPCOMComparison;
     printVPCMPMnemonic := sampleMnemonic "vpcmp" sampleVPCMPComparison;
     printwordmem := sampleSizedMem "word:";
     printdwordmem := sampleSizedMem "dword:";
     printqwordmem := sampleSizedMem "qword:";
     printxmmwordmem := sampleSizedMem "xmmword:";
     printymmwordmem := sampleSizedMem "ymmword:";
     printzmmwordmem := sampleSizedMem "zmmword:" |}.

(** ** The vocabulary of the statements *)

(** The small range [-256, 255], outside of which an immediate is annotated. *)
Definition outsideSmallRange (v : Z) : bool := ((v >? 255) || (v <? -256))%Z.

(** Sign extension of the low [w] bits of [v]. *)
Definition signExtend (w : Z) (v : Z) : Z :=
  ((v + 2 ^ (w - 1)) mod 2 ^ w - 2 ^ (w - 1))%Z.

(** The width printOperand settles on. *)
Definition hexWidth (v : Z) : Z :=
  if (v =? int16_t v)%Z then 16 else if (v =? int32_t v)%Z then 32 else 64.

(** The comment for [v]: its low [hexWidth v] bits in hexadecimal. *)
Definition hexComment (v : Z) : string :=
  format_imm_hex (Z.to_N (v mod 2 ^ hexWidth v)).

(** Whether printing the immediate [v] in state [st] adds the comment. *)
Definition commentEmitted (st : PrinterState) (v : Z) : bool :=
  match CommentStream st with
  | Some _ => negb (HasCustomInstComment st) && outsideSmallRange v
  | None => false
  end.

Section Texts.
Context {MCExpr : Type} {R : Renderers MCExpr}.

(** A register and an immediate as printOperand writes them. *)
Definition regText (RegNo : N) : string :=
  markup "<reg:" ++ "%" ++ getRegisterName RegNo ++ markup ">".

Definition immText (v : Z) : string :=
  markup "<imm:" ++ "$" ++ formatImm v ++ markup ">".

(** The five sub-operands of the memory reference that starts at [Op]. *)
Definition memoryGroup (MI : MCInst MCExpr) (Op : N)
    (BaseReg ScaleAmt IndexReg Disp SegmentReg : MCOperand MCExpr) : Prop :=
  operand MI (u32 (Op + AddrBaseReg)) = Some BaseReg /\
  operand MI (u32 (Op + AddrScaleAmt)) = Some ScaleAmt /\
  operand MI (u32 (Op + AddrIndexReg)) = Some IndexReg /\
  operand MI (u32 (Op + AddrDisp)) = Some Disp /\
  operand MI (u32 (Op + AddrSegmentReg)) = Some SegmentReg.

(** The segment prefix: nothing for register 0. *)
Definition segmentText (Seg : N) : string :=
  if (Seg =? 0)%N then "" else regText Seg ++ ":".

(** Whether an immediate displacement is written. *)
Definition displacementPrinted (Disp : Z) (Base Index : N) : bool :=
  negb (Disp =? 0)%Z || ((Index =? 0)%N && (Base =? 0)%N).

Definition displacementText (Disp : Z) (Base Index : N) : string :=
  if displacementPrinted Disp Base Index then formatImm Disp else "".

(** The scale as it follows the index register: nothing for 1. *)
Definition scaleText (Scale : Z) : string :=
  if (uint32_t Scale =? 1)%N then ""
  else "," ++ markup "<imm:" ++ decimal (uint32_t Scale) ++ markup ">".

(** The parenthesised register part: nothing when both are register 0. *)
Definition registersText (Base : N) (Scale : Z) (Index : N) : string :=
  if ((Index =? 0) && (Base =? 0))%N then ""
  else "("
       ++ (if (Base =? 0)%N then "" else regText Base)
       ++ (if (Index =? 0)%N then "" else "," ++ regText Index ++ scaleText Scale)
       ++ ")".

Definition memReferenceText (Base : N) (Scale : Z) (Index : N) (Disp : Z) (Seg : N) : string :=
  markup "<mem:" ++ segmentText Seg ++ displacementText Disp Base Index
  ++ registersText Base Scale Index ++ markup ">".

End Texts.

(** The last operand of an instruction, if it has any. *)
Definition trailingOperand {MCExpr} (MI : MCInst MCExpr) : option (MCOperand MCExpr) :=
  if (getNumOperands MI =? 0)%N then None
  else operand MI (getNumOperands MI - 1).

(** The legal immediates of the two groups. *)
Definition legalVPCOMImm (v : Z) : bool := ((v >=? 0) && (v <=? 7))%Z.
Definition legalVPCMPImm (v : Z) : bool :=
  (((v >=? 0) && (v <=? 2)) || ((v >=? 4) && (v <=? 6)))%Z.

(** The trailing operand is an immediate in the legal range of the
    instruction's group. *)
Definition trailingImmLegal {MCExpr} (MI : MCInst MCExpr) : bool :=
  match trailingOperand MI with
  | Some (Imm v) =>
      if isVPCOM (getOpcode MI) then legalVPCOMImm v
      else if isVPCMP (getOpcode MI) then legalVPCMPImm v
      else false
  | _ => false
  end.

Section Resolver.
Context {MCExpr : Type} {R : Renderers MCExpr} {C : Collaborators MCExpr}.

(** The count written in the broadcast annotation. *)
Definition broadcastElts (Desc : N) : N :=
  if hasFlag Desc EVEX_L2 then (if hasFlag Desc VEX_W then 8 else 16)
  else if hasFlag Desc VEX_L then (if hasFlag Desc VEX_W then 4 else 8)
  else (if hasFlag Desc VEX_W then 2 else 4).

(** The source operand of the second group, printed at the cursor. *)
Definition printVPCMPSource (MI : MCInst MCExpr) (CurOp : N) : M unit :=
  let Desc := TSFlags (getOpcode MI) in
  if (N.land Desc FormMask =? MRMSrcMem)%N then
    if hasFlag Desc EVEX_B then
      (if hasFlag Desc VEX_W then printqwordmem MI CurOp else printdwordmem MI CurOp) ;;
      write ("{1to" ++ decimal (broadcastElts Desc) ++ "}")
    else if hasFlag Desc EVEX_L2 then printzmmwordmem MI CurOp
    else if hasFlag Desc VEX_L then printymmwordmem MI CurOp
    else printxmmwordmem MI CurOp
  else printOperand MI CurOp.

(** What the second group prints, from a cursor that starts at [CurOp]. *)
Definition printVPCMPFrom (MI : MCInst MCExpr) (CurOp : N) : M bool :=
  write tab ;;
  printVPCMPMnemonic MI ;;
  printVPCMPSource MI CurOp ;;
  write ", " ;;
  printOperand MI (dec32 CurOp) ;;
  write ", " ;;
  printOperand MI 0 ;;
  (if (0 <? dec32 (dec32 CurOp))%N then
     write " {" ;;
     printOperand MI (dec32 (dec32 CurOp)) ;;
     write "}"
   else ret tt) ;;
  ret true.

(** The broadcast form of the second group, the formatter of the scalar
    element left open. *)
Definition printVPCMPBroadcastWith (printElement : MCInst MCExpr -> N -> M unit)
    (MI : MCInst MCExpr) (CurOp : N) : M bool :=
  write tab ;;
  printVPCMPMnemonic MI ;;
  printElement MI CurOp ;;
  write ("{1to" ++ decimal (broadcastElts (TSFlags (getOpcode MI))) ++ "}") ;;
  write ", " ;;
  printOperand MI (dec32 CurOp) ;;
  write ", " ;;
  printOperand MI 0 ;;
  (if (0 <? dec32 (dec32 CurOp))%N then
     write " {" ;;
     printOperand MI (dec32 (dec32 CurOp)) ;;
     write "}"
   else ret tt) ;;
  ret true.

(** What the first group prints. *)
Definition printVPCOMOperands (MI : MCInst MCExpr) : M bool :=
  write tab ;;
  printVPCOMMnemonic MI ;;
  (if (N.land (TSFlags (getOpcode MI)) FormMask =? MRMSrcMem)%N
   then printxmmwordmem MI 2
   else printOperand MI 2) ;;
  write ", " ;;
  printOperand MI 1 ;;
  write ", " ;;
  printOperand MI 0 ;;
  ret true.

End Resolver.

(** An outcome with its state transformed. *)
Definition mapState {A} (f : PrinterState -> PrinterState) (o : Outcome A) : Outcome A :=
  match o with
  | Returned a s => Returned a (f s)
  | Aborted d s => Aborted d (f s)
  end.

(** The state an outcome ends in. *)
Definition stateOf {A} (o : Outcome A) : PrinterState :=
  match o with
  | Returned _ s => s
  | Aborted _ s => s
  end.

(** A routine that, run with no comment stream attached, does the same
    whatever HasCustomInstComment holds, leaves the flag alone and attaches
    no stream. *)
Definition flagBlind {A} (m : M A) : Prop :=
  forall s b, CommentStream s = None ->
    m (setHasCustomInstComment b s) = mapState (setHasCustomInstComment b) (m s) /\
    CommentStream (stateOf (m s)) = None.

Section Blindness.
Context {MCExpr : Type} {C : Collaborators MCExpr}.

(** The routines defined outside this file are blind to the flag. *)
Record CollaboratorsFlagBlind : Prop := {
  blind_printInstFlags : forall MI, flagBlind (printInstFlags MI);
  blind_printPCRelImm : forall MI OpNo, flagBlind (printPCRelImm MI OpNo);
  blind_printAliasInstr : forall MI, flagBlind (printAliasInstr MI);
  blind_printInstruction : forall MI, flagBlind (printInstruction MI);
  blind_printAnnotation : forall Annot, flagBlind (printAnnotation Annot);
  blind_printVPCOMMnemonic : forall MI, flagBlind (printVPCOMMnemonic MI);
  blind_printVPCMPMnemonic : forall MI, flagBlind (printVPCMPMnemonic MI);
  blind_printdwordmem : forall MI Op, flagBlind (printdwordmem MI Op);
  blind_printqwordmem : forall MI Op, flagBlind (printqwordmem MI Op);
  blind_printxmmwordmem : forall MI Op, flagBlind (printxmmwordmem MI Op);
  blind_printymmwordmem : forall MI Op, flagBlind (printymmwordmem MI Op);
  blind_printzmmwordmem : forall MI Op, flagBlind (printzmmwordmem MI Op)
}.

End Blindness.

(** ** The vocabulary of the further properties *)

(** [s'] is [s] with text added: the output stream and the comment stream
    keep what they held, no stream is attached or detached, and the flag is
    as it was. *)
Definition extends (s s' : PrinterState) : Prop :=
  (exists text, OS s' = OS s ++ text) /\
  HasCustomInstComment s' = HasCustomInstComment s /\
  match CommentStream s, CommentStream s' with
  | None, None => True
  | Some c, Some c' => exists text, c' = c ++ text
  | _, _ => False
  end.

(** A routine that only ever adds text, whether it returns or aborts. *)
Definition appendOnly {A} (m : M A) : Prop :=
  forall s, extends s (stateOf (m s)).

(** Two outcomes that agree on the way they end, on the value or the
    diagnostic, and on the text of the output stream. *)
Definition sameText {A} (o o' : Outcome A) : Prop :=
  match o, o' with
  | Returned a s, Returned a' s' => a = a' /\ OS s = OS s'
  | Aborted d s, Aborted d' s' => d = d' /\ OS s = OS s'
  | _, _ => False
  end.

(** A routine whose outcome and output text are settled by the output text
    it starts from: neither the comment stream nor the flag bears on them. *)
Definition textOnly {A} (m : M A) : Prop :=
  forall s s', OS s = OS s' -> sameText (m s) (m s').

(** A routine that leaves the comment stream as it found it. *)
Definition silent {A} (m : M A) : Prop :=
  forall s, CommentStream (stateOf (m s)) = CommentStream s.

(** [s'] still starts with the text of [s] on both streams, and no comment
    stream was attached or detached; the flag may have changed. *)
Definition keepsText (s s' : PrinterState) : Prop :=
  (exists text, OS s' = OS s ++ text) /\
  match CommentStream s, CommentStream s' with
  | None, None => True
  | Some c, Some c' => exists text, c' = c ++ text
  | _, _ => False
  end.

(** A routine that never takes back text, whether it returns or aborts. *)
Definition textKeeping {A} (m : M A) : Prop :=
  forall s, keepsText s (stateOf (m s)).

Section ResolverShapes.
Context {MCExpr : Type} {R : Renderers MCExpr} {C : Collaborators MCExpr}.

(** The second group with the formatter of its source left open. *)
Definition printVPCMPWith (printSource : MCInst MCExpr -> N -> M unit)
    (MI : MCInst MCExpr) (CurOp : N) : M bool :=
  write tab ;;
  printVPCMPMnemonic MI ;;
  printSource MI CurOp ;;
  write ", " ;;
  printOperand MI (dec32 CurOp) ;;
  write ", " ;;
  printOperand MI 0 ;;
  (if (0 <? dec32 (dec32 CurOp))%N then
     write " {" ;;
     printOperand MI (dec32 (dec32 CurOp)) ;;
     write "}"
   else ret tt) ;;
  ret true.

(** The routines the resolver calls outside this file only add text. *)
Record ResolverCollaboratorsAppendOnly : Prop := {
  grow_printVPCOMMnemonic : forall MI, appendOnly (printVPCOMMnemonic MI);
  grow_printVPCMPMnemonic : forall MI, appendOnly (printVPCMPMnemonic MI);
  grow_printdwordmem : forall MI Op, appendOnly (printdwordmem MI Op);
  grow_printqwordmem : forall MI Op, appendOnly (printqwordmem MI Op);
  grow_printxmmwordmem : forall MI Op, appendOnly (printxmmwordmem MI Op);
  grow_printymmwordmem : forall MI Op, appendOnly (printymmwordmem MI Op);
  grow_printzmmwordmem : forall MI Op, appendOnly (printzmmwordmem MI Op)
}.

(** The routines the driver calls outside this file never take back text. *)
Record DriverCollaboratorsKeepText : Prop := {
  keep_printInstFlags : forall MI, textKeeping (printInstFlags MI);
  keep_printPCRelImm : forall MI OpNo, textKeeping (printPCRelImm MI OpNo);
  keep_printAliasInstr : forall MI, textKeeping (printAliasInstr MI);
  keep_printInstruction : forall MI, textKeeping (printInstruction MI);
  keep_printAnnotation : forall Annot, textKeeping (printAnnotation Annot)
}.

End ResolverShapes.

(** * Proofs *)

(** ** Text and state lemmas *)

Lemma append_assoc (a b c : string) : (a ++ b) ++ c = a ++ b ++ c.
Proof. induction a as [|x a IH]; simpl; [reflexivity | now rewrite IH]. Qed.

Lemma append_nil_r (s : string) : s ++ "" = s.
Proof. induction s as [|x s IH]; simpl; [reflexivity | now rewrite IH]. Qed.

Lemma emit_emit (st : PrinterState) (a b : string) :
  emit (emit st a) b = emit st (a ++ b).
Proof. unfold emit; simpl. now rewrite append_assoc. Qed.

Lemma emit_nil (st : PrinterState) : emit st "" = st.
Proof. destruct st; unfold emit; simpl. now rewrite append_nil_r. Qed.

Lemma bind_Returned {A B} (m : M A) (k : A -> M B) (a : A) (s s' : PrinterState) :
  m s = Returned a s' -> bind m k s = k a s'.
Proof. intros H. unfold bind. now rewrite H. Qed.

Ltac powers :=
  change (2 ^ 15)%Z with 32768%Z in *; change (2 ^ 16)%Z with 65536%Z in *;
  change (2 ^ 31)%Z with 2147483648%Z in *; change (2 ^ 32)%Z with 4294967296%Z in *;
  change (2 ^ 63)%Z with 9223372036854775808%Z in *;
  change (2 ^ 64)%Z with 18446744073709551616%Z in *.

(** ** The hex comment of printOperand *)

Section OperandFormatter.
Context {MCExpr : Type} {R : Renderers MCExpr}.

Lemma printOperand_Reg (MI : MCInst MCExpr) (OpNo RegNo : N) (st : PrinterState) :
  operand MI OpNo = Some (Reg RegNo) ->
  printOperand MI OpNo st = Returned tt (emit st (regText RegNo)).
Proof.
  intros H. unfold printOperand, getOperand. rewrite H. reflexivity.
Qed.

Lemma printOperand_Imm (MI : MCInst MCExpr) (OpNo : N) (v : Z) (st : PrinterState) :
  operand MI OpNo = Some (Imm v) ->
  printOperand MI OpNo st =
  Returned tt (if commentEmitted st v
               then annotate (emit st (immText v)) (hexComment v)
               else emit st (immText v)).
Proof.
  intros H. unfold printOperand, getOperand. rewrite H.
  unfold bind, ret, write, comment, commentEmitted, hexComment, hexWidth,
    outsideSmallRange, uint16_t, uint32_t, uint64_t. simpl.
  destruct (CommentStream st); [|reflexivity].
  destruct (negb (HasCustomInstComment st) && ((v >? 255) || (v <? -256))%Z);
    [|reflexivity].
  destruct (v =? int16_t v)%Z; [reflexivity|].
  destruct (v =? int32_t v)%Z; reflexivity.
Qed.

Lemma printOperand_Expr (MI : MCInst MCExpr) (OpNo : N) (E : MCExpr) (st : PrinterState) :
  operand MI OpNo = Some (Expr E) ->
  printOperand MI OpNo st =
  Returned tt (emit st (markup "<imm:" ++ "$" ++ printExpr E ++ markup ">")).
Proof.
  intros H. unfold printOperand, getOperand. rewrite H.
  unfold bind, ret, write. simpl. now rewrite !emit_emit, !append_assoc.
Qed.

Lemma hexWidth_narrowest (v w : Z) :
  int64_range v -> In w [16; 32; 64]%Z ->
  (signExtend w v = v <-> (hexWidth v <= w)%Z).
Proof.
  unfold int64_range, hexWidth, int16_t, int32_t, signExtend. intros Hr Hw.
  simpl in Hw. destruct Hw as [<-|[<-|[<-|[]]]]; simpl Z.sub; powers.
  all: repeat match goal with
         | |- context [(?a =? ?b)%Z] => destruct (Z.eqb_spec a b)
         end; Z.div_mod_to_equations; lia.
Qed.

(** C4. An immediate printed by printOperand gets a hex comment exactly when
    a comment stream is attached, no custom comment was emitted for the
    instruction and the value is outside [-256, 255]; the comment shows the
    low bits of the value at the narrowest of the widths 16, 32 and 64 from
    which sign extension gives the value back (for a value that is not
    negative these are simply its own digits): 16 for 300, 32 for 70000, 64
    for 5000000000, and no comment at 255 or -256. *)
Theorem printOperand_hex_comment
    (MI : MCInst MCExpr) (OpNo : N) (v : Z) (st : PrinterState) :
  operand MI OpNo = Some (Imm v) ->
  int64_range v ->
  printOperand MI OpNo st =
    Returned tt (if commentEmitted st v
                 then annotate (emit st (immText v)) (hexComment v)
                 else emit st (immText v))
  /\ (commentEmitted st v = true <->
      CommentStream st <> None /\ HasCustomInstComment st = false /\
      ~ (-256 <= v <= 255)%Z)
  /\ (forall w, In w [16; 32; 64]%Z ->
      (signExtend w v = v <-> (hexWidth v <= w)%Z))
  /\ ((0 <= v)%Z -> hexComment v = format_imm_hex (Z.to_N v))
  /\ hexWidth 300 = 16%Z /\ hexWidth 70000 = 32%Z /\ hexWidth 5000000000 = 64%Z
  /\ outsideSmallRange 255 = false /\ outsideSmallRange (-256) = false.
Proof.
  intros Hop Hr. split; [now apply printOperand_Imm|].
  split.
  - unfold commentEmitted, outsideSmallRange.
    destruct (CommentStream st) as [c|].
    + destruct (HasCustomInstComment st); simpl.
      * split; [discriminate | intros (_ & H & _); discriminate].
      * rewrite orb_true_iff, Z.gtb_lt, Z.ltb_lt.
        split; [intros H; repeat split; [discriminate | lia] | intros (_ & _ & H); lia].
    + split; [discriminate | intros (H & _); now elim H].
  - split; [intros w Hw; now apply hexWidth_narrowest|].
    split; [|repeat split].
    intros Hpos. unfold hexComment. f_equal. f_equal.
    unfold hexWidth, int16_t, int32_t, int64_range in *. powers.
    repeat match goal with
           | |- context [(?a =? ?b)%Z] => destruct (Z.eqb_spec a b)
           end; powers; apply Z.mod_small; Z.div_mod_to_equations; lia.
Qed.

End OperandFormatter.

Lemma printOperand_hex_comment_witness :
  let MI := mkMCInst (OtherOpcode 0) [Imm 300%Z] in
  let st := mkState "" (Some "") false in
  operand MI 0 = Some (Imm (MCExpr:=string) 300%Z) /\
  int64_range 300 /\
  printOperand (R:=sampleRenderers) MI 0 st =
    Returned tt (mkState "$300" (Some ("imm = 0x12C" ++ newline)) false).
Proof.
  split; [reflexivity|]. split; [unfold int64_range; lia|].
  apply (printOperand_hex_comment (R:=sampleRenderers)
           (mkMCInst (OtherOpcode 0) [Imm 300%Z]) 0 300 (mkState "" (Some "") false));
    [reflexivity | unfold int64_range; lia].
Defined.

(** ** Memory references *)

Section MemoryFormatters.
Context {MCExpr : Type} {R : Renderers MCExpr}.

Lemma printOptionalSegReg_Reg (MI : MCInst MCExpr) (OpNo Seg : N) (st : PrinterState) :
  operand MI OpNo = Some (Reg Seg) ->
  printOptionalSegReg MI OpNo st = Returned tt (emit st (segmentText Seg)).
Proof.
  intros H. unfold printOptionalSegReg, segmentText, getOperand, bind. rewrite H. simpl.
  destruct (Seg =? 0)%N.
  - unfold ret. now rewrite emit_nil.
  - rewrite (printOperand_Reg _ _ _ _ H). unfold write. now rewrite emit_emit.
Qed.

Lemma printMemReference_text (MI : MCInst MCExpr) (Op : N)
    (Base : N) (Scale : Z) (Index : N) (Disp : Z) (Seg : N) (st : PrinterState) :
  memoryGroup MI Op (Reg Base) (Imm Scale) (Reg Index) (Imm Disp) (Reg Seg) ->
  printMemReference MI Op st =
  Returned tt (emit st (memReferenceText Base Scale Index Disp Seg)).
Proof.
  intros (Hb & Hs & Hi & Hd & Hg).
  unfold printMemReference, getOperand. rewrite Hb, Hi, Hd, Hs.
  unfold memReferenceText, displacementText, displacementPrinted, registersText,
    scaleText.
  unfold bind at 1 2 3. unfold ret at 1 2 3.
  unfold bind at 1. unfold write at 1.
  unfold bind at 1. rewrite (printOptionalSegReg_Reg _ _ _ _ Hg).
  unfold getReg, getImm. unfold bind, ret, write. cbv beta iota.
  destruct (Disp =? 0)%Z, (Index =? 0)%N, (Base =? 0)%N; simpl;
    try rewrite (printOperand_Reg _ _ _ _ Hb);
    try rewrite (printOperand_Reg _ _ _ _ Hi);
    try destruct (uint32_t Scale =? 1)%N; simpl;
    repeat (rewrite ?emit_emit, ?append_assoc, ?append_nil_r; simpl); reflexivity.
Qed.

(** C5. With an immediate displacement, printMemReference writes the
    displacement exactly when it is nonzero or base and index are both absent:
    nothing but the formatted zero for an operand with no register and
    displacement 0 (the literal 0 under a formatter that renders zero so), and
    only the parenthesised base when a base is present with displacement 0. *)
Theorem printMemReference_displacement
    (MI : MCInst MCExpr) (Op : N)
    (Base : N) (Scale : Z) (Index : N) (Disp : Z) (Seg : N) (st : PrinterState) :
  memoryGroup MI Op (Reg Base) (Imm Scale) (Reg Index) (Imm Disp) (Reg Seg) ->
  printMemReference MI Op st =
    Returned tt
      (emit st (markup "<mem:" ++ segmentText Seg
                ++ (if displacementPrinted Disp Base Index then formatImm Disp else "")
                ++ registersText Base Scale Index ++ markup ">"))
  /\ (displacementPrinted Disp Base Index = true <->
      Disp <> 0%Z \/ (Base = 0%N /\ Index = 0%N))
  /\ (Base = 0%N -> Index = 0%N -> Disp = 0%Z ->
      printMemReference MI Op st =
        Returned tt (emit st (markup "<mem:" ++ segmentText Seg
                              ++ formatImm 0 ++ markup ">")))
  /\ (Base = 0%N -> Index = 0%N -> Disp = 0%Z -> Seg = 0%N ->
      UseMarkup = false -> formatImm 0 = "0" ->
      printMemReference MI Op st = Returned tt (emit st "0"))
  /\ (Base <> 0%N -> Index = 0%N -> Disp = 0%Z ->
      printMemReference MI Op st =
        Returned tt (emit st (markup "<mem:" ++ segmentText Seg
                              ++ "(" ++ regText Base ++ ")" ++ markup ">"))).
Proof.
  intros Hg. pose proof (printMemReference_text _ _ _ _ _ _ _ st Hg) as Hrun.
  unfold memReferenceText, displacementText in Hrun.
  split; [exact Hrun|]. split.
  - unfold displacementPrinted.
    rewrite orb_true_iff, andb_true_iff, negb_true_iff, Z.eqb_neq, !N.eqb_eq.
    tauto.
  - repeat split.
    + intros -> -> ->. rewrite Hrun. reflexivity.
    + intros -> -> -> -> Hm Hz. rewrite Hrun.
      unfold markup, segmentText. rewrite Hm, Hz. reflexivity.
    + intros Hb -> ->. rewrite Hrun.
      unfold displacementPrinted, registersText.
      apply N.eqb_neq in Hb. rewrite Hb. simpl. now rewrite ?append_assoc.
Qed.

End MemoryFormatters.



Lemma printMemReference_displacement_witness :
  let MI := mkMCInst (OtherOpcode 0) [Reg 0; Imm 1%Z; Reg 0; Imm 0%Z; Reg 0] in
  let st := mkState "" None false in
  memoryGroup (MCExpr:=string) MI 0 (Reg 0) (Imm 1%Z) (Reg 0) (Imm 0%Z) (Reg 0) /\
  printMemReference (R:=sampleRenderers) MI 0 st = Returned tt (mkState "0" None false).
Proof.
  assert (Hg : memoryGroup (MCExpr:=string)
                 (mkMCInst (OtherOpcode 0) [Reg 0; Imm 1%Z; Reg 0; Imm 0%Z; Reg 0]) 0
                 (Reg 0) (Imm 1%Z) (Reg 0) (Imm 0%Z) (Reg 0))
    by (repeat split).
  split; [exact Hg|].
  destruct (printMemReference_displacement (R:=sampleRenderers) _ _ _ _ _ _ _
              (mkState "" None false) Hg) as (_ & _ & _ & H & _).
  apply H; reflexivity.
Defined.


(** ** The remaining operand formatters *)

Section IndexAndImmediateFormatters.
Context {MCExpr : Type} {R : Renderers MCExpr}.

(** printOperand reads nothing of the instruction but the operand it is
    pointed at. *)
Lemma printOperand_local (MI MI' : MCInst MCExpr) (OpNo : N) (st : PrinterState) :
  operand MI OpNo = operand MI' OpNo ->
  printOperand MI OpNo st = printOperand MI' OpNo st.
Proof.
  intros H. unfold printOperand, getOperand. now rewrite H.
Qed.

Lemma printU8Imm_Imm (MI : MCInst MCExpr) (Op : N) (v : Z) (st : PrinterState) :
  operand MI Op = Some (Imm v) ->
  printU8Imm MI Op st = Returned tt (emit st (immText (Z.land v 255))).
Proof.
  intros H. unfold printU8Imm, getOperand. rewrite H.
  unfold bind, ret, write, getImm, immText. simpl.
  now rewrite emit_emit, !append_assoc.
Qed.

(** C7. printU8Imm hands a symbolic expression to printOperand as it is,
    and prints any other operand's immediate value masked to its low 8
    bits: 0x1FF comes out as 0xFF. *)
Theorem printU8Imm_masks_low_byte (MI : MCInst MCExpr) (Op : N) (st : PrinterState) :
  (forall E, operand MI Op = Some (Expr E) ->
     printU8Imm MI Op st = printOperand MI Op st /\
     printU8Imm MI Op st =
       Returned tt (emit st (markup "<imm:" ++ "$" ++ printExpr E ++ markup ">")))
  /\ (forall v, operand MI Op = Some (Imm v) ->
     printU8Imm MI Op st = Returned tt (emit st (immText (Z.land v 255))) /\
     Z.land v 255 = (v mod 2 ^ 8)%Z /\
     (0 <= Z.land v 255 <= 255)%Z)
  /\ Z.land 511 255 = 255%Z.
Proof.
  split; [|split; [|reflexivity]].
  - intros E H.
    assert (Hu : printU8Imm MI Op st = printOperand MI Op st).
    { unfold printU8Imm, getOperand, bind at 1. rewrite H. reflexivity. }
    split; [exact Hu|]. rewrite Hu. now apply printOperand_Expr.
  - intros v H. split.
    + now apply printU8Imm_Imm.
    + change 255%Z with (Z.ones 8). rewrite Z.land_ones by lia.
      split; [reflexivity|].
      pose proof (Z.mod_pos_bound v (2 ^ 8) ltac:(lia)) as Hb.
      change (Z.ones 8) with 255%Z. change (2 ^ 8)%Z with 256%Z in *. lia.
Qed.

(** C8. printDstIdx writes the fixed prefix %es: and the one operand in
    parentheses, and looks at no other operand: two instructions that agree
    on that operand print alike.  printSrcIdx reads the operand after it as a
    segment register and writes its prefix when it is a real register. *)
Theorem printDstIdx_fixed_segment (MI : MCInst MCExpr) (Op : N) (st : PrinterState) :
  printDstIdx MI Op st =
    match printOperand MI Op (emit st (markup "<mem:" ++ "%es:(")) with
    | Returned _ s => Returned tt (emit s (")" ++ markup ">"))
    | Aborted d s => Aborted d s
    end
  /\ (forall MI' : MCInst MCExpr,
     operand MI' Op = operand MI Op ->
     printDstIdx MI' Op st = printDstIdx MI Op st)
  /\ (forall Base, operand MI Op = Some (Reg Base) ->
      printDstIdx MI Op st =
        Returned tt (emit st (markup "<mem:" ++ "%es:(" ++ regText Base ++ ")"
                              ++ markup ">")))
  /\ (forall Base Seg,
      operand MI Op = Some (Reg Base) ->
      operand MI (u32 (Op + 1)) = Some (Reg Seg) ->
      printSrcIdx MI Op st =
        Returned tt (emit st (markup "<mem:" ++ segmentText Seg
                              ++ "(" ++ regText Base ++ ")" ++ markup ">"))
      /\ (Seg = 0%N -> segmentText Seg = "")
      /\ (Seg <> 0%N -> segmentText Seg = regText Seg ++ ":")).
Proof.
  split; [|split; [|split]].
  - unfold printDstIdx, bind, write. rewrite emit_emit.
    destruct (printOperand MI Op (emit st (markup "<mem:" ++ "%es:("))); [|reflexivity].
    now rewrite emit_emit.
  - intros MI' H. unfold printDstIdx, bind, write.
    now rewrite (printOperand_local MI' MI Op _ H).
  - intros Base H. unfold printDstIdx, bind, write.
    rewrite (printOperand_Reg _ _ _ _ H).
    repeat (rewrite ?emit_emit, ?append_assoc; simpl). reflexivity.
  - intros Base Seg Hb Hs. split; [|split].
    + unfold printSrcIdx. unfold bind at 1. unfold write at 1.
      unfold bind at 1. rewrite (printOptionalSegReg_Reg _ _ _ _ Hs).
      unfold bind, write. rewrite (printOperand_Reg _ _ _ _ Hb).
      repeat (rewrite ?emit_emit, ?append_assoc; simpl). reflexivity.
    + intros ->. reflexivity.
    + intros H. unfold segmentText. apply N.eqb_neq in H. now rewrite H.
Qed.




End IndexAndImmediateFormatters.

Lemma printU8Imm_masks_low_byte_witness :
  let MI := mkMCInst (OtherOpcode 0) [Imm 511%Z; Expr "sym"] in
  let st := mkState "" None false in
  printU8Imm (R:=hexRenderers) MI 0 st = Returned tt (mkState "$0xFF" None false) /\
  printU8Imm (R:=hexRenderers) MI 1 st = Returned tt (mkState "$sym" None false).
Proof.
  pose proof (printU8Imm_masks_low_byte (R:=hexRenderers)
                (mkMCInst (OtherOpcode 0) [Imm 511%Z; Expr "sym"]) 0
                (mkState "" None false)) as (_ & Himm & _).
  pose proof (printU8Imm_masks_low_byte (R:=hexRenderers)
                (mkMCInst (OtherOpcode 0) [Imm 511%Z; Expr "sym"]) 1
                (mkState "" None false)) as (Hexpr & _).
  split.
  - exact (proj1 (Himm 511%Z eq_refl)).
  - exact (proj2 (Hexpr "sym" eq_refl)).
Defined.

Lemma printDstIdx_fixed_segment_witness :
  let MI := mkMCInst (OtherOpcode 0) [Reg 6; Reg 8] in
  let MI' := mkMCInst (OtherOpcode 0) [Reg 6; Reg 0] in
  let st := mkState "" None false in
  printDstIdx (R:=sampleRenderers) MI 0 st = Returned tt (mkState "%es:(%rdi)" None false) /\
  printDstIdx (R:=sampleRenderers) MI' 0 st = printDstIdx (R:=sampleRenderers) MI 0 st /\
  printSrcIdx (R:=sampleRenderers) MI 0 st = Returned tt (mkState "%fs:(%rdi)" None false).
Proof.
  pose proof (printDstIdx_fixed_segment (R:=sampleRenderers)
                (mkMCInst (OtherOpcode 0) [Reg 6; Reg 8]) 0
                (mkState "" None false)) as (_ & Hsame & Hdst & Hsrc).
  split; [|split].
  - exact (Hdst 6%N eq_refl).
  - exact (Hsame (mkMCInst (OtherOpcode 0) [Reg 6; Reg 0]) eq_refl).
  - exact (proj1 (Hsrc 6%N 8%N eq_refl eq_refl)).
Defined.



(** ** The vector-compare resolver *)

Lemma last_operand_exists {MCExpr} (MI : MCInst MCExpr) :
  (getNumOperands MI =? 0)%N = false ->
  exists Last, operand MI (getNumOperands MI - 1) = Some Last.
Proof.
  unfold getNumOperands, operand. intros H. apply N.eqb_neq in H.
  destruct (nth_error (Operands MI) (N.to_nat (N.of_nat (List.length (Operands MI)) - 1)))
    as [Last|] eqn:E; [now exists Last|].
  apply nth_error_None in E. lia.
Qed.

Lemma isVPCMP_not_VPCOM (Opc : X86Opcode) : isVPCMP Opc = true -> isVPCOM Opc = false.
Proof. destruct Opc; simpl; intros H; first [reflexivity | discriminate H]. Qed.

Lemma family_not_exception (Opc : X86Opcode) :
  isVPCOM Opc || isVPCMP Opc = true ->
  isCALLpcrel32 Opc = false /\ isDATA16_PREFIX Opc = false.
Proof. destruct Opc; simpl; intros H; first [split; reflexivity | discriminate H]. Qed.

Lemma dec32_pred (n : N) : (0 < n < 2 ^ 32)%N -> dec32 n = (n - 1)%N.
Proof.
  intros H. unfold dec32.
  replace (n + (2 ^ 32 - 1))%N with ((n - 1) + 1 * 2 ^ 32)%N by lia.
  rewrite N.Div0.mod_add. apply N.mod_small. lia.
Qed.

(** Case analysis on the outcome of the next sub-routine of a sequence. *)
Ltac next_outcome :=
  match goal with
  | |- context [match ?f ?s with Returned _ _ => _ | Aborted _ _ => _ end] =>
      lazymatch f with
      | @Returned _ _ => fail
      | (if _ then _ else _) => fail
      | _ => destruct (f s)
      end
  end.

Ltac next_condition :=
  match goal with
  | |- context [if ?c then _ else _] => destruct c
  end.

Ltac run_both :=
  repeat (cbv beta iota zeta; try reflexivity; first [next_outcome | next_condition]).

Section VecCompare.
Context {MCExpr : Type} {R : Renderers MCExpr} {C : Collaborators MCExpr}.

Lemma printVecCompareInstr_trailing (MI : MCInst MCExpr) (st : PrinterState) :
  printVecCompareInstr MI st =
  match trailingOperand MI with
  | Some (Imm v) =>
      if isVPCOM (getOpcode MI) then
        if legalVPCOMImm v then printVPCOMOperands MI st else Returned false st
      else if isVPCMP (getOpcode MI) then
        if legalVPCMPImm v
        then printVPCMPFrom MI
               (if hasFlag (TSFlags (getOpcode MI)) EVEX_K then 3 else 2)%N st
        else Returned false st
      else Returned false st
  | _ => Returned false st
  end.
Proof.
  unfold printVecCompareInstr, trailingOperand.
  destruct (getNumOperands MI =? 0)%N eqn:Hn; [reflexivity|].
  destruct (last_operand_exists MI Hn) as [Last HLast].
  unfold getOperand, bind at 1. rewrite HLast.
  unfold ret at 1.
  destruct Last; try reflexivity.
  destruct (isVPCOM (getOpcode MI)).
  - unfold legalVPCOMImm. destruct ((ImmVal >=? 0) && (ImmVal <=? 7))%Z; reflexivity.
  - destruct (isVPCMP (getOpcode MI)); [|reflexivity].
    unfold legalVPCMPImm.
    destruct (((ImmVal >=? 0) && (ImmVal <=? 2)) || ((ImmVal >=? 4) && (ImmVal <=? 6)))%Z;
      [|reflexivity].
    unfold printVPCMPFrom, printVPCMPSource, broadcastElts, postDecrement.
    set (Desc := TSFlags (getOpcode MI)).
    set (CurOp := (if hasFlag Desc EVEX_K then 3 else 2)%N).
    unfold bind, ret, write.
    destruct (N.land Desc FormMask =? MRMSrcMem)%N.
    + destruct (hasFlag Desc EVEX_B).
      * destruct (hasFlag Desc VEX_W); run_both.
      * destruct (hasFlag Desc EVEX_L2); [run_both|].
        destruct (hasFlag Desc VEX_L); run_both.
    + run_both.
Qed.

Lemma bind_inv {A B} (m : M A) (k : A -> M B) (r : B) (s s' : PrinterState) :
  bind m k s = Returned r s' ->
  exists a s1, m s = Returned a s1 /\ k a s1 = Returned r s'.
Proof.
  unfold bind. destruct (m s) as [a s1|d s1]; [|discriminate].
  intros H. now exists a, s1.
Qed.

Ltac invert_sequence H :=
  repeat (let a := fresh "a" in let s := fresh "s" in let E := fresh "E" in
          apply bind_inv in H; destruct H as (a & s & E & H)).

Lemma printVPCOMOperands_returns_true (MI : MCInst MCExpr) (st st' : PrinterState) (r : bool) :
  printVPCOMOperands MI st = Returned r st' -> r = true.
Proof.
  unfold printVPCOMOperands. intros H. invert_sequence H.
  unfold ret in H. now injection H as <- _.
Qed.

Lemma printVPCMPFrom_returns_true
    (MI : MCInst MCExpr) (CurOp : N) (st st' : PrinterState) (r : bool) :
  printVPCMPFrom MI CurOp st = Returned r st' -> r = true.
Proof.
  unfold printVPCMPFrom. intros H. invert_sequence H.
  unfold ret in H. now injection H as <- _.
Qed.

Lemma printVecCompareInstr_declines (MI : MCInst MCExpr) (st : PrinterState) :
  trailingImmLegal MI = false -> printVecCompareInstr MI st = Returned false st.
Proof.
  rewrite printVecCompareInstr_trailing. unfold trailingImmLegal.
  destruct (trailingOperand MI) as [[| | v | | |]|]; try reflexivity.
  destruct (isVPCOM (getOpcode MI)); [now intros ->|].
  destruct (isVPCMP (getOpcode MI)); [now intros ->|reflexivity].
Qed.

Lemma printVecCompareInstr_never_false_when_legal
    (MI : MCInst MCExpr) (st st' : PrinterState) (r : bool) :
  trailingImmLegal MI = true ->
  printVecCompareInstr MI st = Returned r st' -> r = true.
Proof.
  rewrite printVecCompareInstr_trailing. unfold trailingImmLegal.
  destruct (trailingOperand MI) as [[| | v | | |]|]; try discriminate.
  destruct (isVPCOM (getOpcode MI)).
  - intros ->. apply printVPCOMOperands_returns_true.
  - destruct (isVPCMP (getOpcode MI)); [|discriminate].
    intros ->. apply printVPCMPFrom_returns_true.
Qed.

(** The first group's run when the mnemonic and the source print and the
    other two operands are registers. *)
Lemma printVPCOMOperands_run
    (MI : MCInst MCExpr) (st s1 s2 : PrinterState) (r1 r0 : N) :
  printVPCOMMnemonic MI (emit st tab) = Returned tt s1 ->
  (if (N.land (TSFlags (getOpcode MI)) FormMask =? MRMSrcMem)%N
   then printxmmwordmem MI 2 else printOperand MI 2) s1 = Returned tt s2 ->
  operand MI 1 = Some (Reg r1) ->
  operand MI 0 = Some (Reg r0) ->
  printVPCOMOperands MI st =
    Returned true (emit s2 (", " ++ regText r1 ++ ", " ++ regText r0)).
Proof.
  intros Hm Hsrc H1 H0. unfold printVPCOMOperands.
  unfold bind at 1. unfold write at 1.
  rewrite (bind_Returned _ _ _ _ _ Hm), (bind_Returned _ _ _ _ _ Hsrc).
  unfold bind at 1. unfold write at 1.
  rewrite (bind_Returned _ _ _ _ _ (printOperand_Reg _ _ _ _ H1)).
  unfold bind at 1. unfold write at 1.
  rewrite (bind_Returned _ _ _ _ _ (printOperand_Reg _ _ _ _ H0)).
  unfold ret. now rewrite !emit_emit, ?append_assoc.
Qed.

(** The second group's run under the same conditions, the mask in braces
    when the cursor is still above 0. *)
Lemma printVPCMPFrom_run
    (MI : MCInst MCExpr) (CurOp : N) (st s1 s2 : PrinterState) (r1 r0 mask : N) :
  printVPCMPMnemonic MI (emit st tab) = Returned tt s1 ->
  printVPCMPSource MI CurOp s1 = Returned tt s2 ->
  operand MI (dec32 CurOp) = Some (Reg r1) ->
  operand MI 0 = Some (Reg r0) ->
  ((0 <? dec32 (dec32 CurOp))%N = true ->
   operand MI (dec32 (dec32 CurOp)) = Some (Reg mask)) ->
  printVPCMPFrom MI CurOp st =
    Returned true
      (emit s2 (", " ++ regText r1 ++ ", " ++ regText r0
                ++ if (0 <? dec32 (dec32 CurOp))%N
                   then " {" ++ regText mask ++ "}" else "")).
Proof.
  intros Hm Hsrc H1 H0 Hmask. unfold printVPCMPFrom.
  unfold bind at 1. unfold write at 1.
  rewrite (bind_Returned _ _ _ _ _ Hm), (bind_Returned _ _ _ _ _ Hsrc).
  unfold bind at 1. unfold write at 1.
  rewrite (bind_Returned _ _ _ _ _ (printOperand_Reg _ _ _ _ H1)).
  unfold bind at 1. unfold write at 1.
  rewrite (bind_Returned _ _ _ _ _ (printOperand_Reg _ _ _ _ H0)).
  destruct (0 <? dec32 (dec32 CurOp))%N.
  - unfold bind at 1. unfold bind at 1. unfold write at 1. cbv beta iota.
    rewrite (bind_Returned _ _ _ _ _ (printOperand_Reg _ _ _ _ (Hmask eq_refl))).
    unfold bind, write, ret. now rewrite !emit_emit, ?append_assoc.
  - unfold bind, ret. now rewrite !emit_emit, ?append_assoc, ?append_nil_r.
Qed.

(** C1. For an instruction of the second group with a legal trailing
    immediate the cursor starts at 3 when the descriptor has EVEX_K and at 2
    otherwise; the source is printed at the cursor, the second operand one
    below it, the destination at index 0; after these two uses the cursor is
    above 0 exactly when EVEX_K is set, and then the operand it points at,
    index 1, is printed in braces. *)
Theorem printVecCompareInstr_VPCMP_cursor
    (MI : MCInst MCExpr) (ImmV : Z) (st : PrinterState) :
  isVPCMP (getOpcode MI) = true ->
  trailingOperand MI = Some (Imm ImmV) ->
  legalVPCMPImm ImmV = true ->
  let K := hasFlag (TSFlags (getOpcode MI)) EVEX_K in
  let CurOp0 : N := if K then 3%N else 2%N in
  let CurOp1 : N := dec32 CurOp0 in
  let CurOp2 : N := dec32 CurOp1 in
  printVecCompareInstr MI st =
    (write tab ;;
     printVPCMPMnemonic MI ;;
     printVPCMPSource MI CurOp0 ;;
     write ", " ;;
     printOperand MI CurOp1 ;;
     write ", " ;;
     printOperand MI 0 ;;
     (if K then write " {" ;; printOperand MI 1 ;; write "}" else ret tt) ;;
     ret true) st
  /\ CurOp1 = (CurOp0 - 1)%N /\ CurOp2 = (CurOp1 - 1)%N
  /\ (0 <? CurOp2)%N = K
  /\ (K = true -> CurOp0 = 3%N /\ CurOp1 = 2%N /\ CurOp2 = 1%N)
  /\ (K = false -> CurOp0 = 2%N /\ CurOp1 = 1%N /\ CurOp2 = 0%N).
Proof.
  intros Hop Hlast Hlegal K CurOp0 CurOp1 CurOp2.
  assert (H3 : dec32 3 = 2%N) by reflexivity.
  assert (H2 : dec32 2 = 1%N) by reflexivity.
  assert (H1 : dec32 1 = 0%N) by reflexivity.
  split.
  - rewrite printVecCompareInstr_trailing, Hlast, (isVPCMP_not_VPCOM _ Hop), Hop, Hlegal.
    unfold printVPCMPFrom. subst CurOp2 CurOp1 CurOp0. fold K.
    destruct K; rewrite ?H3, ?H2, ?H1; reflexivity.
  - subst CurOp2 CurOp1 CurOp0. destruct K; rewrite ?H3, ?H2, ?H1;
      repeat split; discriminate.
Qed.

(** C3 (amended). For an instruction of the second group whose source is a
    memory reference with the broadcast flag set, the source is printed by the
    quadword formatter when VEX_W is set and by the doubleword formatter
    otherwise, followed by the annotation {1to<N>}, where N is 8 or 16 under
    EVEX_L2, 4 or 8 under VEX_L alone, 2 or 4 under neither, the smaller
    count being the one with VEX_W. *)
Theorem printVecCompareInstr_broadcast
    (MI : MCInst MCExpr) (ImmV : Z) (st : PrinterState) :
  isVPCMP (getOpcode MI) = true ->
  trailingOperand MI = Some (Imm ImmV) ->
  legalVPCMPImm ImmV = true ->
  N.land (TSFlags (getOpcode MI)) FormMask = MRMSrcMem ->
  hasFlag (TSFlags (getOpcode MI)) EVEX_B = true ->
  let Desc := TSFlags (getOpcode MI) in
  let W := hasFlag Desc VEX_W in
  let L := hasFlag Desc VEX_L in
  let L2 := hasFlag Desc EVEX_L2 in
  let CurOp : N := if hasFlag Desc EVEX_K then 3%N else 2%N in
  let NumElts := broadcastElts Desc in
  printVecCompareInstr MI st =
    printVPCMPBroadcastWith (if W then printqwordmem else printdwordmem) MI CurOp st
  /\ In NumElts [2; 4; 8; 16]%N
  /\ (L2 = true -> W = true -> NumElts = 8%N)
  /\ (L2 = true -> W = false -> NumElts = 16%N)
  /\ (L2 = false -> L = true -> W = true -> NumElts = 4%N)
  /\ (L2 = false -> L = true -> W = false -> NumElts = 8%N)
  /\ (L2 = false -> L = false -> W = true -> NumElts = 2%N)
  /\ (L2 = false -> L = false -> W = false -> NumElts = 4%N).
Proof.
  intros Hop Hlast Hlegal Hform Hb Desc W L L2 CurOp NumElts.
  split.
  - rewrite printVecCompareInstr_trailing, Hlast, (isVPCMP_not_VPCOM _ Hop), Hop, Hlegal.
    subst NumElts CurOp L2 L W Desc.
    unfold printVPCMPFrom, printVPCMPSource, printVPCMPBroadcastWith. cbv zeta.
    rewrite Hform, N.eqb_refl, Hb.
    unfold bind, ret, write.
    destruct (hasFlag (TSFlags (getOpcode MI)) VEX_W); run_both.
  - subst NumElts L2 L W. unfold broadcastElts.
    destruct (hasFlag Desc EVEX_L2), (hasFlag Desc VEX_L), (hasFlag Desc VEX_W);
      simpl; repeat split; intros; try discriminate; tauto.
Qed.

End VecCompare.

Lemma printVecCompareInstr_VPCMP_cursor_witness :
  let MI := mkMCInst VPCMPUDZrrik [Reg 13; Reg 14; Reg 11; Reg 12; Imm 5%Z] in
  let st := mkState "" None false in
  isVPCMP (getOpcode MI) = true /\
  trailingOperand MI = Some (Imm 5%Z) /\
  legalVPCMPImm 5 = true /\
  printVecCompareInstr (R:=sampleRenderers) (C:=sampleCollaborators) MI st =
    Returned true
      (mkState (tab ++ "vpcmpnltud" ++ tab ++ "%zmm2, %zmm1, %k1 {%k2}") None false).
Proof.
  cbv zeta. repeat (split; [reflexivity|]).
  rewrite (proj1 (printVecCompareInstr_VPCMP_cursor
                    (R:=sampleRenderers) (C:=sampleCollaborators)
                    (mkMCInst VPCMPUDZrrik [Reg 13; Reg 14; Reg 11; Reg 12; Imm 5%Z])
                    5 (mkState "" None false) eq_refl eq_refl eq_refl)).
  reflexivity.
Defined.

Lemma printVecCompareInstr_broadcast_witness :
  let MI := mkMCInst VPCMPQZrmibk
              [Reg 13; Reg 14; Reg 12; Reg 1; Imm 1%Z; Reg 0; Imm 0%Z; Reg 0; Imm 5%Z] in
  let st := mkState "" None false in
  isVPCMP (getOpcode MI) = true /\
  trailingOperand MI = Some (Imm 5%Z) /\
  legalVPCMPImm 5 = true /\
  N.land (sampleTSFlags VPCMPQZrmibk) 127 = 33%N /\
  hasFlag (sampleTSFlags VPCMPQZrmibk) 2048 = true /\
  printVecCompareInstr (R:=sampleRenderers) (C:=sampleCollaborators) MI st =
    Returned true
      (mkState (tab ++ "vpcmpnltq" ++ tab ++ "qword:(%rax){1to8}, %zmm2, %k1 {%k2}")
               None false).
Proof.
  cbv zeta. repeat (split; [reflexivity|]).
  rewrite (proj1 (printVecCompareInstr_broadcast
                    (R:=sampleRenderers) (C:=sampleCollaborators)
                    (mkMCInst VPCMPQZrmibk
                       [Reg 13; Reg 14; Reg 12; Reg 1; Imm 1%Z; Reg 0; Imm 0%Z; Reg 0;
                        Imm 5%Z])
                    5 (mkState "" None false) eq_refl eq_refl eq_refl eq_refl eq_refl)).
  reflexivity.
Defined.

(** C3 as worded has the scalar element printed by the word or the doubleword
    formatter.  With VEX_W set the printer calls the quadword formatter, and
    the text is that of neither. *)
Lemma broadcast_element_size_counterexample :
  let MI := mkMCInst VPCMPQZrmib
              [Reg 13; Reg 12; Reg 1; Imm 1%Z; Reg 0; Imm 0%Z; Reg 0; Imm 1%Z] in
  let st := mkState "" None false in
  let printed :=
    printVecCompareInstr (R:=sampleRenderers) (C:=sampleCollaborators) MI st in
  hasFlag (sampleTSFlags VPCMPQZrmib) 2048 = true /\
  hasFlag (sampleTSFlags VPCMPQZrmib) 256 = true /\
  printed =
    Returned true
      (mkState (tab ++ "vpcmpltq" ++ tab ++ "qword:(%rax){1to8}, %zmm2, %k1") None false) /\
  printed <>
    printVPCMPBroadcastWith (R:=sampleRenderers) (C:=sampleCollaborators)
      (@printwordmem string sampleCollaborators) MI 2 st /\
  printed <>
    printVPCMPBroadcastWith (R:=sampleRenderers) (C:=sampleCollaborators)
      (@printdwordmem string sampleCollaborators) MI 2 st.
Proof.
  cbv zeta. repeat (split; [reflexivity|]).
  split; vm_compute; discriminate.
Qed.

(** ** The print driver *)

Lemma flagBlind_ret {A} (a : A) : flagBlind (ret a).
Proof. intros s b Hc. split; [reflexivity | exact Hc]. Qed.

Lemma flagBlind_abort {A} (d : string) : flagBlind (@abort A d).
Proof. intros s b Hc. split; [reflexivity | exact Hc]. Qed.

Lemma flagBlind_write (text : string) : flagBlind (write text).
Proof. intros s b Hc. split; [reflexivity | exact Hc]. Qed.

Lemma flagBlind_comment (text : string) : flagBlind (comment text).
Proof.
  intros s b Hc. unfold comment, annotate. simpl. rewrite Hc.
  split; reflexivity.
Qed.

Lemma flagBlind_bind {A B} (m : M A) (k : A -> M B) :
  flagBlind m -> (forall a, flagBlind (k a)) -> flagBlind (bind m k).
Proof.
  intros Hm Hk s b Hc. destruct (Hm s b Hc) as (Em & Cm).
  unfold bind. rewrite Em.
  destruct (m s) as [a s1|d s1]; simpl in *.
  - apply Hk. exact Cm.
  - split; [reflexivity | exact Cm].
Qed.

Lemma flagBlind_getOperand {MCExpr} (MI : MCInst MCExpr) (i : N) :
  flagBlind (getOperand MI i).
Proof.
  unfold getOperand. destruct (operand MI i);
    [apply flagBlind_ret | apply flagBlind_abort].
Qed.

Lemma flagBlind_getReg {MCExpr} (Op : MCOperand MCExpr) : flagBlind (getReg Op).
Proof. destruct Op; first [apply flagBlind_ret | apply flagBlind_abort]. Qed.

Lemma flagBlind_getImm {MCExpr} (Op : MCOperand MCExpr) : flagBlind (getImm Op).
Proof. destruct Op; first [apply flagBlind_ret | apply flagBlind_abort]. Qed.

(** Blindness of a routine put together from blind parts. *)
Ltac blind :=
  repeat first
    [ assumption
    | match goal with
      | H : forall _, flagBlind _ |- _ => apply H
      | H : forall _ _, flagBlind _ |- _ => apply H
      end
    | apply flagBlind_ret
    | apply flagBlind_abort
    | apply flagBlind_write
    | apply flagBlind_comment
    | apply flagBlind_getOperand
    | apply flagBlind_getReg
    | apply flagBlind_getImm
    | apply flagBlind_bind; [|intros]
    | match goal with
      | |- flagBlind (if ?c then _ else _) => destruct c
      | |- flagBlind (match ?x with _ => _ end) => destruct x
      end ].

Section Driver.
Context {MCExpr : Type} {R : Renderers MCExpr} {C : Collaborators MCExpr}.

Lemma trailingImmLegal_spec (MI : MCInst MCExpr) :
  trailingImmLegal MI = true <->
  exists v, trailingOperand MI = Some (Imm v) /\
    ((isVPCOM (getOpcode MI) = true /\ (0 <= v <= 7)%Z) \/
     (isVPCMP (getOpcode MI) = true /\ ((0 <= v <= 2)%Z \/ (4 <= v <= 6)%Z))).
Proof.
  unfold trailingImmLegal, legalVPCOMImm, legalVPCMPImm. split.
  - destruct (trailingOperand MI) as [[| | v | | |]|]; try discriminate.
    destruct (isVPCOM (getOpcode MI)) eqn:EA.
    + intros H. exists v. split; [reflexivity|]. left. split; [reflexivity|]. lia.
    + destruct (isVPCMP (getOpcode MI)) eqn:EB; [|discriminate].
      intros H. exists v. split; [reflexivity|]. right. split; [reflexivity|]. lia.
  - intros (v & -> & [(EA & Hv) | (EB & Hv)]).
    + rewrite EA. lia.
    + rewrite (isVPCMP_not_VPCOM _ EB), EB. lia.
Qed.

(** C2. For an instruction of either group the resolver handles the
    instruction exactly when the trailing operand is an immediate in the
    group's legal range, 0 to 7 for the first and 0 to 2 or 4 to 6 for the
    second.  Handling is running the group's printing sequence and answering
    true: when the mnemonic and the source print and the remaining operands
    are registers the answer is true with the operands written, and printInst
    goes on to the annotation without the generated printer; a true answer is
    given for a legal immediate only.  Otherwise the resolver answers false at
    once, having written nothing and without aborting, and printInst, when no
    alias matched, prints through printInstruction. *)
Theorem printVecCompareInstr_handles_iff_legal (MI : MCInst MCExpr) (st : PrinterState) :
  isVPCOM (getOpcode MI) || isVPCMP (getOpcode MI) = true ->
  let Desc := TSFlags (getOpcode MI) in
  let K := hasFlag Desc EVEX_K in
  let CurOp : N := if K then 3%N else 2%N in
  (trailingImmLegal MI = true <->
   exists v, trailingOperand MI = Some (Imm v) /\
     ((isVPCOM (getOpcode MI) = true /\ (0 <= v <= 7)%Z) \/
      (isVPCMP (getOpcode MI) = true /\ ((0 <= v <= 2)%Z \/ (4 <= v <= 6)%Z))))
  /\ (trailingImmLegal MI = true <->
      forall st', printVecCompareInstr MI st <> Returned false st')
  /\ (trailingImmLegal MI = false ->
      printVecCompareInstr MI st = Returned false st)
  /\ (trailingImmLegal MI = false ->
      forall Annot STI st1 st2,
        (emitInstComments MI ;; printInstFlags MI) st = Returned tt st1 ->
        printAliasInstr MI st1 = Returned false st2 ->
        printInst MI Annot STI st = (printInstruction MI ;; printAnnotation Annot) st2)
  /\ (trailingImmLegal MI = true ->
      printVecCompareInstr MI st =
        (if isVPCOM (getOpcode MI) then printVPCOMOperands MI
         else printVPCMPFrom MI CurOp) st)
  /\ (trailingImmLegal MI = true -> isVPCOM (getOpcode MI) = true ->
      forall s1 s2 r1 r0,
        printVPCOMMnemonic MI (emit st tab) = Returned tt s1 ->
        (if (N.land Desc FormMask =? MRMSrcMem)%N
         then printxmmwordmem MI 2 else printOperand MI 2) s1 = Returned tt s2 ->
        operand MI 1 = Some (Reg r1) ->
        operand MI 0 = Some (Reg r0) ->
        printVecCompareInstr MI st =
          Returned true (emit s2 (", " ++ regText r1 ++ ", " ++ regText r0)))
  /\ (trailingImmLegal MI = true -> isVPCMP (getOpcode MI) = true ->
      forall s1 s2 r1 r0 mask,
        printVPCMPMnemonic MI (emit st tab) = Returned tt s1 ->
        printVPCMPSource MI CurOp s1 = Returned tt s2 ->
        operand MI (dec32 CurOp) = Some (Reg r1) ->
        operand MI 0 = Some (Reg r0) ->
        (K = true -> operand MI 1 = Some (Reg mask)) ->
        printVecCompareInstr MI st =
          Returned true
            (emit s2 (", " ++ regText r1 ++ ", " ++ regText r0
                      ++ if K then " {" ++ regText mask ++ "}" else "")))
  /\ (forall st', printVecCompareInstr MI st = Returned true st' ->
      trailingImmLegal MI = true)
  /\ (forall Annot STI st1 st2 st3,
        (emitInstComments MI ;; printInstFlags MI) st = Returned tt st1 ->
        printAliasInstr MI st1 = Returned false st2 ->
        printVecCompareInstr MI st2 = Returned true st3 ->
        printInst MI Annot STI st = printAnnotation Annot st3).
Proof.
  intros Hfam Desc K CurOp.
  assert (Hrun : trailingImmLegal MI = true ->
            printVecCompareInstr MI st =
              (if isVPCOM (getOpcode MI) then printVPCOMOperands MI
               else printVPCMPFrom MI CurOp) st).
  { intros Hlegal. rewrite printVecCompareInstr_trailing.
    unfold trailingImmLegal in Hlegal.
    destruct (trailingOperand MI) as [[| | v | | |]|]; try discriminate.
    destruct (isVPCOM (getOpcode MI)); [now rewrite Hlegal|].
    destruct (isVPCMP (getOpcode MI)); [now rewrite Hlegal | discriminate]. }
  destruct (family_not_exception _ Hfam) as (Hcall & Hdata).
  refine (conj _ (conj _ (conj _ (conj _ (conj _ (conj _ (conj _ (conj _ _)))))))).
  - apply trailingImmLegal_spec.
  - split.
    + intros Hlegal st' Hfalse.
      pose proof (printVecCompareInstr_never_false_when_legal _ _ _ _ Hlegal Hfalse).
      discriminate.
    + intros Hnever. destruct (trailingImmLegal MI) eqn:E; [reflexivity|].
      elim (Hnever st). now apply printVecCompareInstr_declines.
  - apply printVecCompareInstr_declines.
  - intros Hillegal Annot STI st1 st2 Hpre Halias.
    apply bind_inv in Hpre. destruct Hpre as (u & s0 & Hcomments & Hflags).
    unfold printInst. rewrite Hcall, Hdata. simpl andb. cbv iota.
    rewrite (bind_Returned _ _ _ _ _ Hcomments), (bind_Returned _ _ _ _ _ Hflags).
    unfold bind. rewrite Halias.
    rewrite (printVecCompareInstr_declines _ st2 Hillegal).
    reflexivity.
  - exact Hrun.
  - intros Hlegal HA s1 s2 r1 r0 Hm Hsrc H1 H0.
    rewrite (Hrun Hlegal), HA.
    now apply (printVPCOMOperands_run _ _ s1).
  - intros Hlegal HB s1 s2 r1 r0 mask Hm Hsrc H1 H0 Hmask.
    rewrite (Hrun Hlegal), (isVPCMP_not_VPCOM _ HB).
    assert (Hcursor : (0 <? dec32 (dec32 CurOp))%N = K /\
                      (K = true -> dec32 (dec32 CurOp) = 1%N)).
    { subst CurOp. destruct K; split; first [reflexivity | discriminate]. }
    destruct Hcursor as (Hpos & Hone).
    rewrite <- Hpos.
    apply (printVPCMPFrom_run _ _ _ s1); try assumption.
    intros Habove. rewrite Hpos in Habove. rewrite (Hone Habove). now apply Hmask.
  - intros st' Htrue. destruct (trailingImmLegal MI) eqn:E; [reflexivity|].
    rewrite (printVecCompareInstr_declines _ _ E) in Htrue. discriminate.
  - intros Annot STI st1 st2 st3 Hpre Halias Htrue.
    apply bind_inv in Hpre. destruct Hpre as (u & s0 & Hcomments & Hflags).
    unfold printInst. rewrite Hcall, Hdata. simpl andb. cbv iota.
    rewrite (bind_Returned _ _ _ _ _ Hcomments), (bind_Returned _ _ _ _ _ Hflags).
    unfold bind. rewrite Halias, Htrue. reflexivity.
Qed.

(** printOperand run with the flag set and with it clear: the same but for
    the hex comment. *)
Lemma printOperand_flag_effect (MI : MCInst MCExpr) (OpNo : N) (st : PrinterState) :
  let suppressed := printOperand MI OpNo (setHasCustomInstComment true st) in
  let plain := printOperand MI OpNo (setHasCustomInstComment false st) in
  plain = mapState (setHasCustomInstComment false) suppressed
  \/ exists v,
       operand MI OpNo = Some (Imm v) /\
       CommentStream st <> None /\ outsideSmallRange v = true /\
       suppressed = Returned tt (emit (setHasCustomInstComment true st) (immText v)) /\
       plain = Returned tt (annotate (emit (setHasCustomInstComment false st) (immText v))
                                     (hexComment v)).
Proof.
  cbv zeta.
  destruct (operand MI OpNo) as [[| r | v | f | E | i]|] eqn:Hop;
    try (left; unfold printOperand, getOperand; rewrite Hop; reflexivity).
  - rewrite !(printOperand_Imm _ _ _ _ Hop). unfold commentEmitted. simpl.
    destruct (CommentStream st) as [c|] eqn:Hc; [|left; reflexivity].
    destruct (outsideSmallRange v) eqn:Hout; [|left; reflexivity].
    right. exists v. repeat split; [discriminate | exact Hout].
Qed.

Lemma printOperand_without_comment_stream
    (MI : MCInst MCExpr) (OpNo : N) (st : PrinterState) (b : bool) :
  CommentStream st = None ->
  printOperand MI OpNo (setHasCustomInstComment b st) =
  mapState (setHasCustomInstComment b) (printOperand MI OpNo st).
Proof.
  intros Hc.
  destruct (operand MI OpNo) as [[| r | v | f | E | i]|] eqn:Hop;
    try (unfold printOperand, getOperand; rewrite Hop; reflexivity).
  - rewrite !(printOperand_Imm _ _ _ _ Hop). unfold commentEmitted. simpl.
    rewrite Hc. reflexivity.
Qed.


Lemma flagBlind_printOperand (MI : MCInst MCExpr) (OpNo : N) :
  flagBlind (printOperand MI OpNo).
Proof.
  intros s b Hc. split.
  - now apply printOperand_without_comment_stream.
  - destruct (operand MI OpNo) as [[| r | v | f | E | i]|] eqn:Hop;
      try (unfold printOperand, getOperand; rewrite Hop; exact Hc).
    rewrite (printOperand_Imm _ _ _ _ Hop). unfold commentEmitted. rewrite Hc. exact Hc.
Qed.

Lemma flagBlind_printOptionalSegReg (MI : MCInst MCExpr) (OpNo : N) :
  flagBlind (printOptionalSegReg MI OpNo).
Proof. unfold printOptionalSegReg. pose proof flagBlind_printOperand. blind. Qed.

Lemma flagBlind_printMemReference (MI : MCInst MCExpr) (Op : N) :
  flagBlind (printMemReference MI Op).
Proof.
  unfold printMemReference.
  pose proof flagBlind_printOperand. pose proof flagBlind_printOptionalSegReg.
  blind.
Qed.

Lemma flagBlind_printVecCompareInstr (MI : MCInst MCExpr) :
  CollaboratorsFlagBlind -> flagBlind (printVecCompareInstr MI).
Proof.
  intros [].
  unfold printVecCompareInstr, postDecrement.
  pose proof flagBlind_printOperand.
  blind.
Qed.

Lemma flagBlind_emitInstComments (MI : MCInst MCExpr) : flagBlind (emitInstComments MI).
Proof.
  intros s b Hc. unfold emitInstComments. simpl. rewrite Hc. split; [reflexivity | exact Hc].
Qed.

Lemma flagBlind_printInst (MI : MCInst MCExpr) (Annot : string) (STI : FeatureBitset) :
  CollaboratorsFlagBlind -> flagBlind (printInst MI Annot STI).
Proof.
  intros HC. pose proof (flagBlind_printVecCompareInstr MI HC).
  destruct HC.
  unfold printInst.
  pose proof (flagBlind_emitInstComments MI).
  blind.
Qed.

(** C10 (amended). With a comment stream attached printInst overwrites the
    flag first thing, with the answer of the comment generator for this
    instruction, so the call does the same whatever value the flag had on
    entry.  With none attached the flag is left as it was, and nothing reads
    it: printOperand does the same whatever the flag holds, and so does the
    whole call when the routines defined outside this file do.  Between a
    flag that is set and one that is clear printOperand differs by the hex
    comment alone. *)
Theorem printInst_flag_scope
    (MI : MCInst MCExpr) (Annot : string) (STI : FeatureBitset) (st : PrinterState) :
  (CommentStream st <> None ->
     emitInstComments MI st =
       Returned tt (setHasCustomInstComment (snd (EmitAnyX86InstComments MI))
                      (annotate st (fst (EmitAnyX86InstComments MI))))
     /\ forall b, printInst MI Annot STI (setHasCustomInstComment b st) =
                  printInst MI Annot STI st)
  /\ (CommentStream st = None ->
     emitInstComments MI st = Returned tt st
     /\ forall OpNo b,
          printOperand MI OpNo (setHasCustomInstComment b st) =
          mapState (setHasCustomInstComment b) (printOperand MI OpNo st))
  /\ (CollaboratorsFlagBlind -> CommentStream st = None ->
      forall b, printInst MI Annot STI (setHasCustomInstComment b st) =
                mapState (setHasCustomInstComment b) (printInst MI Annot STI st))
  /\ (forall OpNo,
        printOperand MI OpNo (setHasCustomInstComment false st) =
        mapState (setHasCustomInstComment false)
          (printOperand MI OpNo (setHasCustomInstComment true st))
        \/ exists v,
             operand MI OpNo = Some (Imm v) /\
             CommentStream st <> None /\ outsideSmallRange v = true /\
             printOperand MI OpNo (setHasCustomInstComment true st) =
               Returned tt (emit (setHasCustomInstComment true st) (immText v)) /\
             printOperand MI OpNo (setHasCustomInstComment false st) =
               Returned tt (annotate (emit (setHasCustomInstComment false st) (immText v))
                                     (hexComment v))).
Proof.
  split; [|split; [|split]].
  - intros Hc. destruct (CommentStream st) as [c|] eqn:Ec; [|now elim Hc].
    assert (Hreset : forall s, CommentStream s = Some c -> OS s = OS st ->
              emitInstComments MI s =
              Returned tt (setHasCustomInstComment (snd (EmitAnyX86InstComments MI))
                             (annotate st (fst (EmitAnyX86InstComments MI))))).
    { intros s Hs Ho. unfold emitInstComments. rewrite Hs.
      destruct (EmitAnyX86InstComments MI) as [text emitted]. simpl.
      unfold setHasCustomInstComment, annotate. simpl. now rewrite Hs, Ec, Ho. }
    split; [now apply Hreset|].
    intros b. unfold printInst.
    rewrite (bind_Returned _ _ _ _ _ (Hreset st Ec eq_refl)).
    rewrite (bind_Returned _ _ _ _ _ (Hreset (setHasCustomInstComment b st) Ec eq_refl)).
    reflexivity.
  - intros Hc. split.
    + unfold emitInstComments. now rewrite Hc.
    + intros OpNo b. now apply printOperand_without_comment_stream.
  - intros HC Hc b. now apply (flagBlind_printInst MI Annot STI HC).
  - intros OpNo. apply printOperand_flag_effect.
Qed.

End Driver.

Lemma printVecCompareInstr_handles_iff_legal_witness :
  let legal := mkMCInst VPCOMBri [Reg 9; Reg 10; Reg 11; Imm 2%Z] in
  let masked := mkMCInst VPCMPUDZrrik [Reg 13; Reg 14; Reg 11; Reg 12; Imm 5%Z] in
  let illegal := mkMCInst VPCOMBri [Reg 9; Reg 10; Reg 9; Imm 8%Z] in
  let st := mkState "" None false in
  let handled := mkState (tab ++ "vpcomgtb" ++ tab ++ "%zmm1, %xmm1, %xmm0") None false in
  (isVPCOM (getOpcode legal) = true /\
   trailingImmLegal legal = true /\
   printVecCompareInstr (R:=sampleRenderers) (C:=sampleCollaborators) legal st =
     Returned true handled /\
   printInst (R:=sampleRenderers) (C:=sampleCollaborators) legal "" (fun _ => false) st =
     Returned tt handled) /\
  (isVPCMP (getOpcode masked) = true /\
   trailingImmLegal masked = true /\
   printVecCompareInstr (R:=sampleRenderers) (C:=sampleCollaborators) masked st =
     Returned true
       (mkState (tab ++ "vpcmpnltud" ++ tab ++ "%zmm2, %zmm1, %k1 {%k2}") None false)) /\
  (isVPCOM (getOpcode illegal) = true /\
   trailingImmLegal illegal = false /\
   printVecCompareInstr (R:=sampleRenderers) (C:=sampleCollaborators) illegal st =
     Returned false st /\
   printInst (R:=sampleRenderers) (C:=sampleCollaborators) illegal "" (fun _ => false) st =
     Returned tt (mkState (tab ++ "insn" ++ tab ++ "$8, %xmm0, %xmm1, %xmm0") None false)).
Proof.
  cbv zeta.
  pose proof (printVecCompareInstr_handles_iff_legal
                (R:=sampleRenderers) (C:=sampleCollaborators)
                (mkMCInst VPCOMBri [Reg 9; Reg 10; Reg 11; Imm 2%Z])
                (mkState "" None false) eq_refl) as Hlegal.
  pose proof (printVecCompareInstr_handles_iff_legal
                (R:=sampleRenderers) (C:=sampleCollaborators)
                (mkMCInst VPCMPUDZrrik [Reg 13; Reg 14; Reg 11; Reg 12; Imm 5%Z])
                (mkState "" None false) eq_refl) as Hmasked.
  pose proof (printVecCompareInstr_handles_iff_legal
                (R:=sampleRenderers) (C:=sampleCollaborators)
                (mkMCInst VPCOMBri [Reg 9; Reg 10; Reg 9; Imm 8%Z])
                (mkState "" None false) eq_refl) as Hillegal.
  cbv zeta in Hlegal, Hmasked, Hillegal.
  destruct Hlegal as (_ & _ & _ & _ & _ & HrunA & _ & _ & Hinst).
  destruct Hmasked as (_ & _ & _ & _ & _ & _ & HrunB & _).
  destruct Hillegal as (_ & _ & Hdecline & Hgeneric & _).
  split; [|split].
  - split; [reflexivity|]. split; [reflexivity|]. split.
    + exact (HrunA eq_refl eq_refl
               (mkState (tab ++ "vpcomgtb" ++ tab) None false)
               (mkState (tab ++ "vpcomgtb" ++ tab ++ "%zmm1") None false)
               10%N 9%N eq_refl eq_refl eq_refl eq_refl).
    + exact (eq_trans
               (Hinst "" (fun _ => false) (mkState "" None false) (mkState "" None false)
                  (mkState (tab ++ "vpcomgtb" ++ tab ++ "%zmm1, %xmm1, %xmm0") None false)
                  eq_refl eq_refl eq_refl)
               eq_refl).
  - split; [reflexivity|]. split; [reflexivity|].
    exact (HrunB eq_refl eq_refl
             (mkState (tab ++ "vpcmpnltud" ++ tab) None false)
             (mkState (tab ++ "vpcmpnltud" ++ tab ++ "%zmm2") None false)
             11%N 13%N 14%N eq_refl eq_refl eq_refl eq_refl (fun _ => eq_refl)).
  - split; [reflexivity|]. split; [reflexivity|].
    split; [exact (Hdecline eq_refl)|].
    exact (eq_trans
             (Hgeneric eq_refl "" (fun _ => false) (mkState "" None false)
                (mkState "" None false) eq_refl eq_refl)
             eq_refl).
Defined.

Lemma flagBlind_sampleOperandsDown (MI : MCInst string) (n : nat) :
  flagBlind (sampleOperandsDown MI n).
Proof.
  pose proof (flagBlind_printOperand (R:=sampleRenderers)) as Hop.
  induction n as [|k IH]; simpl; [apply flagBlind_ret|].
  apply flagBlind_bind; [apply Hop | intros _].
  apply flagBlind_bind; [destruct k; blind | intros _; exact IH].
Qed.

Lemma flagBlind_sampleAnnotation (Annot : string) : flagBlind (sampleAnnotation Annot).
Proof.
  destruct Annot as [|c Annot]; [apply flagBlind_ret|].
  intros s b Hc. simpl. rewrite Hc. split; [reflexivity | exact Hc].
Qed.

Lemma flagBlind_sampleMnemonic (stem : string) (comparison : Z -> M unit)
    (MI : MCInst string) :
  (forall v, flagBlind (comparison v)) -> flagBlind (sampleMnemonic stem comparison MI).
Proof. intros H. unfold sampleMnemonic. blind. Qed.

Lemma flagBlind_sampleSizedMem (size : string) (MI : MCInst string) (Op : N) :
  flagBlind (sampleSizedMem size MI Op).
Proof.
  unfold sampleSizedMem.
  apply flagBlind_bind; [apply flagBlind_write | intros _].
  apply flagBlind_printMemReference.
Qed.

Lemma sampleCollaborators_flagBlind :
  CollaboratorsFlagBlind (C:=sampleCollaborators).
Proof.
  constructor; simpl; intros;
    try apply flagBlind_sampleSizedMem;
    try apply flagBlind_sampleAnnotation;
    try apply flagBlind_ret.
  - unfold samplePCRelImm. blind.
  - apply flagBlind_bind; [apply flagBlind_write | intros _].
    apply flagBlind_sampleOperandsDown.
  - apply flagBlind_sampleMnemonic. intros v. unfold sampleVPCOMComparison. blind.
  - apply flagBlind_sampleMnemonic. intros v. unfold sampleVPCMPComparison. blind.
Qed.

Lemma printInst_flag_scope_witness :
  let MI := mkMCInst (OtherOpcode 0) [Imm 300%Z] in
  let attached := mkState "" (Some "") true in
  let detached := mkState "" None true in
  CommentStream attached <> None /\
  CommentStream detached = None /\
  CollaboratorsFlagBlind (C:=sampleCollaborators) /\
  printInst (R:=sampleRenderers) (C:=sampleCollaborators) MI "" (fun _ => false) attached =
    Returned tt (mkState (tab ++ "insn" ++ tab ++ "$300")
                         (Some ("imm = 0x12C" ++ newline)) false) /\
  printInst (R:=sampleRenderers) (C:=sampleCollaborators) MI "" (fun _ => false) detached =
    Returned tt (mkState (tab ++ "insn" ++ tab ++ "$300") None true).
Proof.
  cbv zeta.
  assert (Hc : CommentStream (mkState "" (Some "") true) <> None) by discriminate.
  split; [exact Hc|]. split; [reflexivity|].
  split; [exact sampleCollaborators_flagBlind|].
  destruct (printInst_flag_scope (R:=sampleRenderers) (C:=sampleCollaborators)
              (mkMCInst (OtherOpcode 0) [Imm 300%Z]) "" (fun _ => false)
              (mkState "" (Some "") false)) as (Hreset & _).
  destruct (printInst_flag_scope (R:=sampleRenderers) (C:=sampleCollaborators)
              (mkMCInst (OtherOpcode 0) [Imm 300%Z]) "" (fun _ => false)
              (mkState "" None false)) as (_ & _ & Hblind & _).
  assert (Hc' : CommentStream (mkState "" (Some "") false) <> None) by discriminate.
  split.
  - exact (eq_trans (proj2 (Hreset Hc') true) eq_refl).
  - exact (eq_trans (Hblind sampleCollaborators_flagBlind eq_refl true) eq_refl).
Defined.

(** C10 as worded has the flag reset at the start of every call.  With no
    comment stream attached the call leaves it alone: the comment generator
    would answer false for this instruction, and the flag is still set when
    the call returns. *)
Lemma flag_not_reset_without_comment_stream :
  let MI := mkMCInst (OtherOpcode 0) [Imm 300%Z] in
  let st := mkState "" None true in
  snd (EmitAnyX86InstComments (Collaborators:=sampleCollaborators) MI) = false /\
  HasCustomInstComment st = true /\
  emitInstComments (C:=sampleCollaborators) MI st = Returned tt st /\
  printInst (R:=sampleRenderers) (C:=sampleCollaborators) MI "" (fun _ => false) st =
    Returned tt (mkState (tab ++ "insn" ++ tab ++ "$300") None true).
Proof.
  cbv zeta. repeat split.
Qed.

(** ** Concrete runs

    The sample printer on a few instructions, by evaluation. *)

Example VPCMP_reserved_immediates_decline :
  let st := mkState "" None false in
  printVecCompareInstr (R:=sampleRenderers) (C:=sampleCollaborators)
    (mkMCInst VPCMPUDZrri [Reg 13; Reg 11; Reg 12; Imm 3%Z]) st = Returned false st /\
  printVecCompareInstr (R:=sampleRenderers) (C:=sampleCollaborators)
    (mkMCInst VPCMPUDZrri [Reg 13; Reg 11; Reg 12; Imm 7%Z]) st = Returned false st /\
  printInst (R:=sampleRenderers) (C:=sampleCollaborators)
    (mkMCInst VPCMPUDZrri [Reg 13; Reg 11; Reg 12; Imm 3%Z]) "" (fun _ => false) st =
    Returned tt (mkState (tab ++ "insn" ++ tab ++ "$3, %zmm2, %zmm1, %k1") None false).
Proof. repeat split. Qed.

Example VPCMP_without_mask :
  printVecCompareInstr (R:=sampleRenderers) (C:=sampleCollaborators)
    (mkMCInst VPCMPUDZrri [Reg 13; Reg 11; Reg 12; Imm 5%Z]) (mkState "" None false) =
  Returned true (mkState (tab ++ "vpcmpnltud" ++ tab ++ "%zmm2, %zmm1, %k1") None false).
Proof. reflexivity. Qed.

Example VPCOM_in_range :
  printVecCompareInstr (R:=sampleRenderers) (C:=sampleCollaborators)
    (mkMCInst VPCOMBri [Reg 9; Reg 10; Reg 9; Imm 7%Z]) (mkState "" None false) =
  Returned true (mkState (tab ++ "vpcomtrueb" ++ tab ++ "%xmm0, %xmm1, %xmm0") None false).
Proof. reflexivity. Qed.

Example VPCOM_memory_source :
  printVecCompareInstr (R:=sampleRenderers) (C:=sampleCollaborators)
    (mkMCInst VPCOMBmi [Reg 9; Reg 10; Reg 1; Imm 1%Z; Reg 0; Imm 8%Z; Reg 0; Imm 0%Z])
    (mkState "" None false) =
  Returned true
    (mkState (tab ++ "vpcomltb" ++ tab ++ "xmmword:8(%rax), %xmm1, %xmm0") None false).
Proof. reflexivity. Qed.

Example hex_comment_runs :
  let st := mkState "" (Some "") false in
  let print v := printOperand (R:=sampleRenderers) (mkMCInst (OtherOpcode 0) [Imm v]) 0 st in
  print 70000%Z =
    Returned tt (mkState "$70000" (Some ("imm = 0x11170" ++ newline)) false) /\
  print 5000000000%Z =
    Returned tt (mkState "$5000000000" (Some ("imm = 0x12A05F200" ++ newline)) false) /\
  print (-300)%Z =
    Returned tt (mkState "$-300" (Some ("imm = 0xFED4" ++ newline)) false) /\
  print 255%Z = Returned tt (mkState "$255" (Some "") false) /\
  print (-256)%Z = Returned tt (mkState "$-256" (Some "") false) /\
  printOperand (R:=sampleRenderers) (mkMCInst (OtherOpcode 0) [Imm 300%Z]) 0
    (mkState "" (Some "") true) = Returned tt (mkState "$300" (Some "") true).
Proof. repeat split. Qed.

Example memory_reference_runs :
  let st := mkState "" None false in
  printMemReference (R:=sampleRenderers)
    (mkMCInst (OtherOpcode 0) [Reg 1; Imm 1%Z; Reg 0; Imm 0%Z; Reg 0]) 0 st =
    Returned tt (mkState "(%rax)" None false) /\
  printMemReference (R:=sampleRenderers)
    (mkMCInst (OtherOpcode 0) [Reg 1; Imm 1%Z; Reg 2; Imm 0%Z; Reg 0]) 0 st =
    Returned tt (mkState "(%rax,%rbx)" None false) /\
  printMemReference (R:=sampleRenderers)
    (mkMCInst (OtherOpcode 0) [Reg 0; Imm 4%Z; Reg 2; Imm (-8)%Z; Reg 8]) 0 st =
    Returned tt (mkState "%fs:-8(,%rbx,4)" None false) /\
  printMemReference (R:=markupRenderers)
    (mkMCInst (OtherOpcode 0) [Reg 1; Imm 1%Z; Reg 0; Imm 0%Z; Reg 0]) 0 st =
    Returned tt (mkState "<mem:(<reg:%rax>)>" None false) /\
  printMemOffset (R:=sampleRenderers)
    (mkMCInst (OtherOpcode 0) [Imm 0%Z; Reg 0]) 0 st =
    Returned tt (mkState "0" None false).
Proof. repeat split. Qed.

Example driver_exceptions :
  let st := mkState "" None false in
  printInst (R:=sampleRenderers) (C:=sampleCollaborators)
    (mkMCInst CALLpcrel32 [Expr "foo"]) ""
    (fun f => match f with Mode64Bit => true | _ => false end) st =
    Returned tt (mkState (tab ++ "callq" ++ tab ++ "foo") None false) /\
  printInst (R:=sampleRenderers) (C:=sampleCollaborators)
    (mkMCInst DATA16_PREFIX []) "note"
    (fun f => match f with Mode16Bit => true | _ => false end) st =
    Returned tt (mkState (tab ++ "data32 # note") None false) /\
  printSTiRegOperand (R:=sampleRenderers) (mkMCInst (OtherOpcode 0) [Reg 15]) 0 st =
    Returned tt (mkState "%st(0)" None false).
Proof. repeat split. Qed.

(** * Further properties *)

(** ** The formatters only add text *)

Lemma extends_refl (s : PrinterState) : extends s s.
Proof.
  unfold extends. split; [exists ""; now rewrite append_nil_r|]. split; [reflexivity|].
  destruct (CommentStream s); [exists ""; now rewrite append_nil_r | exact I].
Qed.

Lemma extends_trans (s1 s2 s3 : PrinterState) :
  extends s1 s2 -> extends s2 s3 -> extends s1 s3.
Proof.
  unfold extends. intros ((t1 & H1) & F1 & C1) ((t2 & H2) & F2 & C2).
  split; [exists (t1 ++ t2); now rewrite H2, H1, append_assoc|].
  split; [congruence|].
  destruct (CommentStream s1), (CommentStream s2), (CommentStream s3);
    try contradiction; try exact I.
  destruct C1 as (u1 & ->), C2 as (u2 & ->). exists (u1 ++ u2). now rewrite append_assoc.
Qed.

Lemma extends_emit (s : PrinterState) (text : string) : extends s (emit s text).
Proof.
  unfold extends, emit; simpl. split; [now exists text|]. split; [reflexivity|].
  destruct (CommentStream s); [exists ""; now rewrite append_nil_r | exact I].
Qed.

Lemma extends_annotate (s : PrinterState) (text : string) : extends s (annotate s text).
Proof.
  unfold extends, annotate; simpl. split; [exists ""; now rewrite append_nil_r|].
  split; [reflexivity|].
  destruct (CommentStream s); [now exists text | exact I].
Qed.

Lemma appendOnly_ret {A} (a : A) : appendOnly (ret a).
Proof. intros s. apply extends_refl. Qed.

Lemma appendOnly_abort {A} (d : string) : appendOnly (@abort A d).
Proof. intros s. apply extends_refl. Qed.

Lemma appendOnly_write (text : string) : appendOnly (write text).
Proof. intros s. apply extends_emit. Qed.

Lemma appendOnly_comment (text : string) : appendOnly (comment text).
Proof. intros s. apply extends_annotate. Qed.

Lemma appendOnly_bind {A B} (m : M A) (k : A -> M B) :
  appendOnly m -> (forall a, appendOnly (k a)) -> appendOnly (bind m k).
Proof.
  intros Hm Hk s. specialize (Hm s). unfold bind.
  destruct (m s) as [a s1|d s1]; simpl in *; [|exact Hm].
  exact (extends_trans _ _ _ Hm (Hk a s1)).
Qed.

Lemma appendOnly_getOperand {MCExpr} (MI : MCInst MCExpr) (i : N) :
  appendOnly (getOperand MI i).
Proof.
  unfold getOperand. destruct (operand MI i);
    [apply appendOnly_ret | apply appendOnly_abort].
Qed.

Lemma appendOnly_getReg {MCExpr} (Op : MCOperand MCExpr) : appendOnly (getReg Op).
Proof. destruct Op; first [apply appendOnly_ret | apply appendOnly_abort]. Qed.

Lemma appendOnly_getImm {MCExpr} (Op : MCOperand MCExpr) : appendOnly (getImm Op).
Proof. destruct Op; first [apply appendOnly_ret | apply appendOnly_abort]. Qed.

Lemma appendOnly_hex_comment (v : Z) :
  appendOnly (fun s : PrinterState =>
     match CommentStream s with
     | Some _ =>
         if negb (HasCustomInstComment s) && ((v >? 255) || (v <? -256))%Z
         then
           if (v =? int16_t v)%Z
           then comment (format_imm_hex (uint16_t v)) s
           else if (v =? int32_t v)%Z
           then comment (format_imm_hex (uint32_t v)) s
           else comment (format_imm_hex (uint64_t v)) s
         else ret tt s
     | None => ret tt s
     end).
Proof.
  intros s. destruct (CommentStream s) eqn:Hc; [|apply extends_refl].
  destruct (negb (HasCustomInstComment s) && ((v >? 255) || (v <? -256))%Z);
    [|apply extends_refl].
  destruct (v =? int16_t v)%Z; [apply extends_annotate|].
  destruct (v =? int32_t v)%Z; apply extends_annotate.
Qed.

(** Append-only routines put together from append-only parts. *)
Ltac grow :=
  repeat first
    [ assumption
    | match goal with
      | H : forall _, appendOnly _ |- _ => apply H
      | H : forall _ _, appendOnly _ |- _ => apply H
      end
    | apply appendOnly_ret
    | apply appendOnly_abort
    | apply appendOnly_write
    | apply appendOnly_comment
    | apply appendOnly_hex_comment
    | apply appendOnly_getOperand
    | apply appendOnly_getReg
    | apply appendOnly_getImm
    | apply appendOnly_bind; [|intros]
    | match goal with
      | |- appendOnly (if ?c then _ else _) => destruct c
      | |- appendOnly (match ?x with _ => _ end) => destruct x
      end ].

Section AppendOnly.
Context {MCExpr : Type} {R : Renderers MCExpr} {C : Collaborators MCExpr}.

Lemma appendOnly_printOperand (MI : MCInst MCExpr) (OpNo : N) :
  appendOnly (printOperand MI OpNo).
Proof. unfold printOperand, printRegName. grow. Qed.

Lemma appendOnly_printOptionalSegReg (MI : MCInst MCExpr) (OpNo : N) :
  appendOnly (printOptionalSegReg MI OpNo).
Proof. unfold printOptionalSegReg. pose proof appendOnly_printOperand. grow. Qed.

Lemma appendOnly_printMemReference (MI : MCInst MCExpr) (Op : N) :
  appendOnly (printMemReference MI Op).
Proof.
  pose proof appendOnly_printOperand. pose proof appendOnly_printOptionalSegReg.
  unfold printMemReference. grow.
Qed.

(** X1. Every operand formatter of the file only adds text: whether it
    returns or aborts, the output stream and the comment stream still start
    with what they held, no comment stream has been attached or detached, and
    HasCustomInstComment is as it was. *)
Theorem formatters_append_only (MI : MCInst MCExpr) (Op : N) :
  appendOnly (printOperand MI Op) /\
  appendOnly (printMemReference MI Op) /\
  appendOnly (printSrcIdx MI Op) /\
  appendOnly (printDstIdx MI Op) /\
  appendOnly (printMemOffset MI Op) /\
  appendOnly (printU8Imm MI Op) /\
  appendOnly (printSTiRegOperand MI Op).
Proof.
  pose proof appendOnly_printOperand as Hop.
  pose proof appendOnly_printOptionalSegReg as Hseg.
  repeat apply conj.
  - apply Hop.
  - apply appendOnly_printMemReference.
  - unfold printSrcIdx. grow.
  - unfold printDstIdx. grow.
  - unfold printMemOffset. grow.
  - unfold printU8Imm. grow.
  - unfold printSTiRegOperand, printRegName. grow.
Qed.

(** X2. printVecCompareInstr only adds text, and leaves the flag alone,
    when the mnemonic printers and the sized memory formatters it calls
    do. *)
Theorem printVecCompareInstr_append_only (MI : MCInst MCExpr) :
  ResolverCollaboratorsAppendOnly -> appendOnly (printVecCompareInstr MI).
Proof.
  intros [].
  pose proof appendOnly_printOperand as Hop.
  unfold printVecCompareInstr, postDecrement. grow.
Qed.

End AppendOnly.

Lemma appendOnly_sampleMnemonic (stem : string) (comparison : Z -> M unit)
    (MI : MCInst string) :
  (forall v, appendOnly (comparison v)) -> appendOnly (sampleMnemonic stem comparison MI).
Proof. intros H. unfold sampleMnemonic. grow. Qed.

Lemma appendOnly_sampleSizedMem (size : string) (MI : MCInst string) (Op : N) :
  appendOnly (sampleSizedMem size MI Op).
Proof.
  unfold sampleSizedMem.
  apply appendOnly_bind; [apply appendOnly_write | intros _].
  apply appendOnly_printMemReference.
Qed.

Lemma sampleCollaborators_appendOnly :
  ResolverCollaboratorsAppendOnly (C:=sampleCollaborators).
Proof.
  constructor; simpl; intros; try apply appendOnly_sampleSizedMem.
  - apply appendOnly_sampleMnemonic. intros v. unfold sampleVPCOMComparison. grow.
  - apply appendOnly_sampleMnemonic. intros v. unfold sampleVPCMPComparison. grow.
Qed.

Lemma printVecCompareInstr_append_only_witness :
  let MI := mkMCInst VPCMPQZrmibk
              [Reg 13; Reg 14; Reg 12; Reg 1; Imm 1%Z; Reg 0; Imm 0%Z; Reg 0; Imm 5%Z] in
  let st := mkState "before" (Some "notes") true in
  ResolverCollaboratorsAppendOnly (C:=sampleCollaborators) /\
  extends st
    (stateOf (printVecCompareInstr (R:=sampleRenderers) (C:=sampleCollaborators) MI st)).
Proof.
  cbv zeta. split; [exact sampleCollaborators_appendOnly|].
  apply (printVecCompareInstr_append_only (R:=sampleRenderers) (C:=sampleCollaborators)
           _ sampleCollaborators_appendOnly).
Defined.

(** ** The text does not depend on the side channel *)

Lemma textOnly_ret {A} (a : A) : textOnly (ret a).
Proof. intros s s' H. split; [reflexivity | exact H]. Qed.

Lemma textOnly_abort {A} (d : string) : textOnly (@abort A d).
Proof. intros s s' H. split; [reflexivity | exact H]. Qed.

Lemma textOnly_write (text : string) : textOnly (write text).
Proof. intros s s' H. split; [reflexivity | simpl; now rewrite H]. Qed.

Lemma textOnly_bind {A B} (m : M A) (k : A -> M B) :
  textOnly m -> (forall a, textOnly (k a)) -> textOnly (bind m k).
Proof.
  intros Hm Hk s s' H. specialize (Hm s s' H). unfold bind.
  destruct (m s) as [a s1|d s1], (m s') as [a' s1'|d' s1']; simpl in Hm;
    try contradiction.
  - destruct Hm as (<- & Ho). now apply Hk.
  - exact Hm.
Qed.

Lemma textOnly_getOperand {MCExpr} (MI : MCInst MCExpr) (i : N) :
  textOnly (getOperand MI i).
Proof.
  unfold getOperand. destruct (operand MI i);
    [apply textOnly_ret | apply textOnly_abort].
Qed.

Lemma textOnly_getReg {MCExpr} (Op : MCOperand MCExpr) : textOnly (getReg Op).
Proof. destruct Op; first [apply textOnly_ret | apply textOnly_abort]. Qed.

Lemma textOnly_getImm {MCExpr} (Op : MCOperand MCExpr) : textOnly (getImm Op).
Proof. destruct Op; first [apply textOnly_ret | apply textOnly_abort]. Qed.

Lemma textOnly_hex_comment (v : Z) :
  textOnly (fun s : PrinterState =>
     match CommentStream s with
     | Some _ =>
         if negb (HasCustomInstComment s) && ((v >? 255) || (v <? -256))%Z
         then
           if (v =? int16_t v)%Z
           then comment (format_imm_hex (uint16_t v)) s
           else if (v =? int32_t v)%Z
           then comment (format_imm_hex (uint32_t v)) s
           else comment (format_imm_hex (uint64_t v)) s
         else ret tt s
     | None => ret tt s
     end).
Proof.
  intros s s' H.
  destruct (CommentStream s), (CommentStream s');
    repeat match goal with
           | |- context [if ?c then _ else _] => destruct c
           end; split; try reflexivity; exact H.
Qed.

Ltac plain :=
  repeat first
    [ assumption
    | match goal with
      | H : forall _, textOnly _ |- _ => apply H
      | H : forall _ _, textOnly _ |- _ => apply H
      end
    | apply textOnly_ret
    | apply textOnly_abort
    | apply textOnly_write
    | apply textOnly_hex_comment
    | apply textOnly_getOperand
    | apply textOnly_getReg
    | apply textOnly_getImm
    | apply textOnly_bind; [|intros]
    | match goal with
      | |- textOnly (if ?c then _ else _) => destruct c
      | |- textOnly (match ?x with _ => _ end) => destruct x
      end ].

Section TextOnly.
Context {MCExpr : Type} {R : Renderers MCExpr}.

Lemma textOnly_printOperand (MI : MCInst MCExpr) (OpNo : N) :
  textOnly (printOperand MI OpNo).
Proof. unfold printOperand, printRegName. plain. Qed.

Lemma textOnly_printOptionalSegReg (MI : MCInst MCExpr) (OpNo : N) :
  textOnly (printOptionalSegReg MI OpNo).
Proof. unfold printOptionalSegReg. pose proof textOnly_printOperand. plain. Qed.

(** X3. What an operand formatter writes to the output stream, and whether
    it returns or aborts, is settled by the instruction and the text already
    written: the comment stream, attached or not, and HasCustomInstComment
    have no bearing on it. *)
Theorem formatters_text_only (MI : MCInst MCExpr) (Op : N) :
  textOnly (printOperand MI Op) /\
  textOnly (printMemReference MI Op) /\
  textOnly (printSrcIdx MI Op) /\
  textOnly (printDstIdx MI Op) /\
  textOnly (printMemOffset MI Op) /\
  textOnly (printU8Imm MI Op) /\
  textOnly (printSTiRegOperand MI Op).
Proof.
  pose proof textOnly_printOperand as Hop.
  pose proof textOnly_printOptionalSegReg as Hseg.
  repeat apply conj.
  - apply Hop.
  - unfold printMemReference. plain.
  - unfold printSrcIdx. plain.
  - unfold printDstIdx. plain.
  - unfold printMemOffset. plain.
  - unfold printU8Imm. plain.
  - unfold printSTiRegOperand, printRegName. plain.
Qed.

End TextOnly.

Lemma formatters_text_only_witness :
  let MI := mkMCInst (OtherOpcode 0) [Imm 300%Z] in
  let annotated := mkState "x" (Some "") false in
  let bare := mkState "x" None true in
  OS annotated = OS bare /\
  sameText (printOperand (R:=sampleRenderers) MI 0 annotated)
           (printOperand (R:=sampleRenderers) MI 0 bare).
Proof.
  cbv zeta. split; [reflexivity|].
  apply (proj1 (formatters_text_only (R:=sampleRenderers)
                  (mkMCInst (OtherOpcode 0) [Imm 300%Z]) 0)).
  reflexivity.
Defined.

(** ** Who writes to the comment stream *)

Lemma silent_ret {A} (a : A) : silent (ret a).
Proof. intros s. reflexivity. Qed.

Lemma silent_abort {A} (d : string) : silent (@abort A d).
Proof. intros s. reflexivity. Qed.

Lemma silent_write (text : string) : silent (write text).
Proof. intros s. reflexivity. Qed.

Lemma silent_bind {A B} (m : M A) (k : A -> M B) :
  silent m -> (forall a, silent (k a)) -> silent (bind m k).
Proof.
  intros Hm Hk s. specialize (Hm s). unfold bind.
  destruct (m s) as [a s1|d s1]; simpl in *; [|exact Hm].
  now rewrite (Hk a s1).
Qed.

(** The continuation of getOperand may rely on the operand being there. *)
Lemma silent_bind_getOperand {MCExpr B} (MI : MCInst MCExpr) (i : N)
    (k : MCOperand MCExpr -> M B) :
  (forall Op, operand MI i = Some Op -> silent (k Op)) ->
  silent (bind (getOperand MI i) k).
Proof.
  intros Hk s. unfold bind, getOperand.
  destruct (operand MI i) as [Op|] eqn:E; [|reflexivity].
  exact (Hk Op eq_refl s).
Qed.

(** The continuation of getReg may rely on the operand being a register. *)
Lemma silent_bind_getReg {MCExpr B} (Op : MCOperand MCExpr) (k : N -> M B) :
  (forall RegNo, Op = Reg RegNo -> silent (k RegNo)) ->
  silent (bind (getReg Op) k).
Proof.
  intros Hk s. unfold bind. destruct Op; try reflexivity.
  exact (Hk RegVal eq_refl s).
Qed.

Lemma silent_bind_getImm {MCExpr B} (Op : MCOperand MCExpr) (k : Z -> M B) :
  (forall v, Op = Imm v -> silent (k v)) ->
  silent (bind (getImm Op) k).
Proof.
  intros Hk s. unfold bind. destruct Op; try reflexivity.
  exact (Hk ImmVal eq_refl s).
Qed.

Section Silence.
Context {MCExpr : Type} {R : Renderers MCExpr}.

Lemma silent_printOperand_Reg (MI : MCInst MCExpr) (OpNo RegNo : N) :
  operand MI OpNo = Some (Reg RegNo) -> silent (printOperand MI OpNo).
Proof. intros H s. now rewrite (printOperand_Reg _ _ _ _ H). Qed.

Lemma silent_printOperand_Expr (MI : MCInst MCExpr) (OpNo : N) (E : MCExpr) :
  operand MI OpNo = Some (Expr E) -> silent (printOperand MI OpNo).
Proof. intros H s. now rewrite (printOperand_Expr _ _ _ _ H). Qed.

Ltac quiet :=
  repeat first
    [ apply silent_ret
    | apply silent_abort
    | apply silent_write
    | match goal with
      | H : operand ?MI ?p = Some ?Op, E : ?Op = Reg _ |- silent (printOperand ?MI ?p) =>
          subst Op; exact (silent_printOperand_Reg _ _ _ H)
      | H : operand ?MI ?p = Some (Reg _) |- silent (printOperand ?MI ?p) =>
          exact (silent_printOperand_Reg _ _ _ H)
      | H : operand ?MI ?p = Some (Expr _) |- silent (printOperand ?MI ?p) =>
          exact (silent_printOperand_Expr _ _ _ H)
      | H : forall _ _, silent _ |- _ => apply H
      end
    | apply silent_bind_getOperand; intros
    | apply silent_bind_getReg; intros
    | apply silent_bind_getImm; intros
    | apply silent_bind; [|intros]
    | match goal with
      | |- silent (if ?c then _ else _) => destruct c eqn:?
      | |- silent (match ?x with _ => _ end) => destruct x eqn:?
      end ].

Lemma silent_printOptionalSegReg (MI : MCInst MCExpr) (OpNo : N) :
  silent (printOptionalSegReg MI OpNo).
Proof. unfold printOptionalSegReg. quiet. Qed.

(** X4. The memory formatters, the 8-bit immediate formatter and the
    stack-register formatter never write to the comment stream, whatever the
    operands and however they end; of the formatters of the file only
    printOperand does, and only the hex comment of an immediate outside
    [-256, 255] printed while the flag is clear. *)
Theorem comment_stream_writers (MI : MCInst MCExpr) (Op : N) :
  silent (printMemReference MI Op) /\
  silent (printMemOffset MI Op) /\
  silent (printU8Imm MI Op) /\
  silent (printSTiRegOperand MI Op) /\
  (forall st,
     CommentStream (stateOf (printOperand MI Op st)) = CommentStream st \/
     exists v c,
       operand MI Op = Some (Imm v) /\ outsideSmallRange v = true /\
       HasCustomInstComment st = false /\ CommentStream st = Some c /\
       CommentStream (stateOf (printOperand MI Op st)) = Some (c ++ hexComment v)).
Proof.
  pose proof silent_printOptionalSegReg as Hseg.
  repeat apply conj.
  - unfold printMemReference. quiet.
  - unfold printMemOffset. quiet.
  - unfold printU8Imm. apply silent_bind_getOperand. intros Operand H.
    destruct Operand; simpl;
      first [exact (silent_printOperand_Expr _ _ _ H) | quiet].
  - unfold printSTiRegOperand, printRegName. quiet.
  - intros st.
    destruct (operand MI Op) as [[| r | v | f | E | i]|] eqn:Hop;
      try (left; unfold printOperand, getOperand; rewrite Hop; reflexivity).
    rewrite (printOperand_Imm _ _ _ _ Hop). unfold commentEmitted.
    destruct (CommentStream st) as [c|] eqn:Hc; [|left; simpl; exact Hc].
    destruct (HasCustomInstComment st) eqn:Hf; [left; simpl; exact Hc|].
    destruct (outsideSmallRange v) eqn:Hout; [|left; simpl; exact Hc].
    right. exists v, c.
    do 4 (split; [first [reflexivity | assumption]|]).
    simpl. rewrite ?Hc. reflexivity.
Qed.

End Silence.

(** ** What a memory reference reads *)

Section Locality.
Context {MCExpr : Type} {R : Renderers MCExpr}.

Lemma printOptionalSegReg_local (MI MI' : MCInst MCExpr) (OpNo : N) (st : PrinterState) :
  operand MI' OpNo = operand MI OpNo ->
  printOptionalSegReg MI' OpNo st = printOptionalSegReg MI OpNo st.
Proof.
  intros H.
  assert (Hp : forall s, printOperand MI' OpNo s = printOperand MI OpNo s)
    by (intros s; now apply printOperand_local).
  unfold printOptionalSegReg, getOperand. rewrite H.
  destruct (operand MI OpNo) as [[| r | v | f | E | i]|]; try reflexivity.
  unfold getReg. unfold bind, ret. cbv beta iota.
  destruct (r =? 0)%N; [reflexivity|].
  now rewrite Hp.
Qed.

Lemma bind_ext {A B} (m m' : M A) (k k' : A -> M B) (s : PrinterState) :
  m s = m' s -> (forall a s1, k a s1 = k' a s1) -> bind m k s = bind m' k' s.
Proof.
  intros Hm Hk. unfold bind. rewrite Hm. destruct (m' s); [apply Hk | reflexivity].
Qed.

Lemma bind_ext_getOperand {B} (MI MI' : MCInst MCExpr) (i : N)
    (k k' : MCOperand MCExpr -> M B) (s : PrinterState) :
  operand MI' i = operand MI i ->
  (forall Op s1, operand MI i = Some Op -> k Op s1 = k' Op s1) ->
  bind (getOperand MI' i) k s = bind (getOperand MI i) k' s.
Proof.
  intros H Hk. unfold bind, getOperand. rewrite H.
  destruct (operand MI i) as [Op|]; [now apply Hk | reflexivity].
Qed.

Lemma bind_ext_getReg {B} (Op : MCOperand MCExpr) (k k' : N -> M B) (s : PrinterState) :
  (forall RegNo s1, Op = Reg RegNo -> k RegNo s1 = k' RegNo s1) ->
  bind (getReg Op) k s = bind (getReg Op) k' s.
Proof.
  intros Hk. unfold bind. destruct Op; try reflexivity. now apply Hk.
Qed.

(** X5. printMemReference reads the five sub-operands of its group and
    nothing else of the instruction, and it does not read the scale when the
    index is register 0: two instructions that agree on base, index,
    displacement and segment, and on the scale unless the index is register
    0, are printed alike, text, comment and outcome. *)
Theorem printMemReference_reads_its_group
    (MI MI' : MCInst MCExpr) (Op : N) (st : PrinterState) :
  operand MI' (u32 (Op + AddrBaseReg)) = operand MI (u32 (Op + AddrBaseReg)) ->
  operand MI' (u32 (Op + AddrIndexReg)) = operand MI (u32 (Op + AddrIndexReg)) ->
  operand MI' (u32 (Op + AddrDisp)) = operand MI (u32 (Op + AddrDisp)) ->
  operand MI' (u32 (Op + AddrSegmentReg)) = operand MI (u32 (Op + AddrSegmentReg)) ->
  operand MI (u32 (Op + AddrIndexReg)) = Some (Reg 0) \/
  operand MI' (u32 (Op + AddrScaleAmt)) = operand MI (u32 (Op + AddrScaleAmt)) ->
  printMemReference MI' Op st = printMemReference MI Op st.
Proof.
  intros Hb Hi Hd Hg Hs.
  assert (Pb : forall s, printOperand MI' (u32 (Op + AddrBaseReg)) s =
                         printOperand MI (u32 (Op + AddrBaseReg)) s)
    by (intros s; now apply printOperand_local).
  assert (Pi : forall s, printOperand MI' (u32 (Op + AddrIndexReg)) s =
                         printOperand MI (u32 (Op + AddrIndexReg)) s)
    by (intros s; now apply printOperand_local).
  assert (Pg : forall s, printOptionalSegReg MI' (u32 (Op + AddrSegmentReg)) s =
                         printOptionalSegReg MI (u32 (Op + AddrSegmentReg)) s)
    by (intros s; now apply printOptionalSegReg_local).
  unfold printMemReference.
  apply bind_ext_getOperand; [exact Hb | intros BaseReg s1 Eb].
  apply bind_ext_getOperand; [exact Hi | intros IndexReg s2 Ei].
  apply bind_ext_getOperand; [exact Hd | intros DispSpec s3 Ed].
  apply bind_ext; [reflexivity | intros _ s4].
  apply bind_ext; [apply Pg | intros _ s5].
  apply bind_ext; [reflexivity | intros _ s6].
  apply bind_ext_getReg. intros Index s7 EIndex.
  apply bind_ext; [reflexivity | intros hasRegs s8].
  apply bind_ext; [|intros; reflexivity].
  destruct hasRegs; [|reflexivity].
  apply bind_ext; [reflexivity | intros _ s9].
  apply bind_ext_getReg. intros Base s10 EBase.
  apply bind_ext; [destruct (negb (Base =? 0)%N); [apply Pb | reflexivity] | intros _ s11].
  apply bind_ext_getReg. intros Index' s12 EIndex'.
  apply bind_ext; [|intros; reflexivity].
  destruct (Index' =? 0)%N eqn:Ezero; [reflexivity|]. simpl negb. cbv iota.
  apply bind_ext; [reflexivity | intros _ s13].
  apply bind_ext; [apply Pi | intros _ s14].
  destruct Hs as [Hzero | Hscale].
  - rewrite Hzero in Ei. injection Ei as <-. injection EIndex' as <-. discriminate Ezero.
  - apply bind_ext_getOperand; [exact Hscale | intros; reflexivity].
Qed.

End Locality.

Lemma printMemReference_reads_its_group_witness :
  let MI := mkMCInst (OtherOpcode 0) [Reg 1; Imm 4%Z; Reg 0; Imm 16%Z; Reg 8] in
  let MI' := mkMCInst VPCOMBmi [Reg 1; Reg 7; Reg 0; Imm 16%Z; Reg 8; Imm 99%Z] in
  let st := mkState "" None false in
  operand MI 2 = Some (Reg (MCExpr:=string) 0) /\
  printMemReference (R:=sampleRenderers) MI' 0 st =
  printMemReference (R:=sampleRenderers) MI 0 st /\
  printMemReference (R:=sampleRenderers) MI 0 st =
    Returned tt (mkState "%fs:16(%rax)" None false).
Proof.
  cbv zeta. split; [reflexivity|]. split; [|reflexivity].
  apply (printMemReference_reads_its_group (R:=sampleRenderers)
           (mkMCInst (OtherOpcode 0) [Reg 1; Imm 4%Z; Reg 0; Imm 16%Z; Reg 8])
           (mkMCInst VPCOMBmi [Reg 1; Reg 7; Reg 0; Imm 16%Z; Reg 8; Imm 99%Z])
           0 (mkState "" None false));
    try reflexivity.
  left. reflexivity.
Defined.

(** ** How the formatters relate *)

Section Relations.
Context {MCExpr : Type} {R : Renderers MCExpr}.

Lemma printMemReference_expr_text (MI : MCInst MCExpr) (Op : N)
    (Base : N) (Scale : Z) (Index : N) (E : MCExpr) (Seg : N) (st : PrinterState) :
  memoryGroup MI Op (Reg Base) (Imm Scale) (Reg Index) (Expr E) (Reg Seg) ->
  printMemReference MI Op st =
  Returned tt (emit st (markup "<mem:" ++ segmentText Seg ++ printExpr E
                        ++ registersText Base Scale Index ++ markup ">")).
Proof.
  intros (Hb & Hs & Hi & Hd & Hg).
  unfold printMemReference, getOperand. rewrite Hb, Hi, Hd, Hs.
  unfold registersText, scaleText.
  unfold bind at 1 2 3. unfold ret at 1 2 3.
  unfold bind at 1. unfold write at 1.
  unfold bind at 1. rewrite (printOptionalSegReg_Reg _ _ _ _ Hg).
  unfold getReg, getImm. unfold bind, ret, write. cbv beta iota.
  destruct (Index =? 0)%N, (Base =? 0)%N; simpl;
    try rewrite (printOperand_Reg _ _ _ _ Hb);
    try rewrite (printOperand_Reg _ _ _ _ Hi);
    try destruct (uint32_t Scale =? 1)%N; simpl;
    repeat (rewrite ?emit_emit, ?append_assoc, ?append_nil_r; simpl); reflexivity.
Qed.

Lemma printMemReference_no_registers (MI : MCInst MCExpr) (Op : N)
    (Disp : MCOperand MCExpr) (Seg : N) (st : PrinterState) (text : string) :
  operand MI (u32 (Op + AddrBaseReg)) = Some (Reg 0) ->
  operand MI (u32 (Op + AddrIndexReg)) = Some (Reg 0) ->
  operand MI (u32 (Op + AddrDisp)) = Some Disp ->
  operand MI (u32 (Op + AddrSegmentReg)) = Some (Reg Seg) ->
  (exists d, Disp = Imm d /\ text = formatImm d) \/
  (exists E, Disp = Expr E /\ text = printExpr E) ->
  printMemReference MI Op st =
  Returned tt (emit st (markup "<mem:" ++ segmentText Seg ++ text ++ markup ">")).
Proof.
  intros Hb Hi Hd Hg Hdisp.
  unfold printMemReference, getOperand. rewrite Hb, Hi, Hd.
  unfold bind at 1 2 3. unfold ret at 1 2 3.
  unfold bind at 1. unfold write at 1.
  unfold bind at 1. rewrite (printOptionalSegReg_Reg _ _ _ _ Hg).
  unfold getReg. unfold bind, ret, write. cbv beta iota.
  destruct Hdisp as [(d & -> & ->) | (E & -> & ->)].
  - destruct (d =? 0)%Z; simpl;
      repeat (rewrite ?emit_emit, ?append_assoc, ?append_nil_r; simpl); reflexivity.
  - simpl. repeat (rewrite ?emit_emit, ?append_assoc, ?append_nil_r; simpl). reflexivity.
Qed.

Lemma printMemOffset_text (MI : MCInst MCExpr) (Op : N)
    (Disp : MCOperand MCExpr) (Seg : N) (st : PrinterState) (text : string) :
  operand MI Op = Some Disp ->
  operand MI (u32 (Op + 1)) = Some (Reg Seg) ->
  (exists d, Disp = Imm d /\ text = formatImm d) \/
  (exists E, Disp = Expr E /\ text = printExpr E) ->
  printMemOffset MI Op st =
  Returned tt (emit st (markup "<mem:" ++ segmentText Seg ++ text ++ markup ">")).
Proof.
  intros Hd Hg Hdisp.
  unfold printMemOffset, getOperand. rewrite Hd.
  unfold bind at 1. unfold ret at 1.
  unfold bind at 1. unfold write at 1.
  unfold bind at 1. rewrite (printOptionalSegReg_Reg _ _ _ _ Hg).
  unfold bind, ret, write.
  destruct Hdisp as [(d & -> & ->) | (E & -> & ->)]; simpl;
    repeat (rewrite ?emit_emit, ?append_assoc, ?append_nil_r; simpl); reflexivity.
Qed.

(** X6. printU8Imm prints an immediate the way printOperand prints the
    immediate masked to its low 8 bits, comment stream included: the masked
    value is never outside the small range, so no hex comment comes with
    it. *)
Theorem printU8Imm_as_printOperand
    (MI MI' : MCInst MCExpr) (Op : N) (v : Z) (st : PrinterState) :
  operand MI Op = Some (Imm v) ->
  operand MI' Op = Some (Imm (Z.land v 255)) ->
  printU8Imm MI Op st = printOperand MI' Op st /\
  CommentStream (stateOf (printU8Imm MI Op st)) = CommentStream st.
Proof.
  intros H H'.
  assert (Hrun : printU8Imm MI Op st = Returned tt (emit st (immText (Z.land v 255))))
    by now apply printU8Imm_Imm.
  assert (Hsmall : outsideSmallRange (Z.land v 255) = false).
  { unfold outsideSmallRange.
    change 255%Z with (Z.ones 8) at 1 3. rewrite Z.land_ones by lia.
    pose proof (Z.mod_pos_bound v (2 ^ 8) ltac:(lia)) as Hb.
    change (2 ^ 8)%Z with 256%Z in *.
    apply orb_false_iff. split; [rewrite Z.gtb_ltb|]; apply Z.ltb_ge; lia. }
  split; [|now rewrite Hrun].
  rewrite Hrun, (printOperand_Imm _ _ _ _ H'). unfold commentEmitted.
  rewrite Hsmall, andb_false_r. now destruct (CommentStream st).
Qed.

(** X7. A symbolic displacement is always written by printMemReference,
    registers or not, before the parenthesised registers. *)
Theorem printMemReference_expr_displacement
    (MI : MCInst MCExpr) (Op : N)
    (Base : N) (Scale : Z) (Index : N) (E : MCExpr) (Seg : N) (st : PrinterState) :
  memoryGroup MI Op (Reg Base) (Imm Scale) (Reg Index) (Expr E) (Reg Seg) ->
  printMemReference MI Op st =
    Returned tt (emit st (markup "<mem:" ++ segmentText Seg ++ printExpr E
                          ++ registersText Base Scale Index ++ markup ">"))
  /\ (Base = 0%N -> Index = 0%N ->
      printMemReference MI Op st =
        Returned tt (emit st (markup "<mem:" ++ segmentText Seg ++ printExpr E
                              ++ markup ">"))).
Proof.
  intros Hg. pose proof (printMemReference_expr_text _ _ _ _ _ _ _ st Hg) as Hrun.
  split; [exact Hrun|].
  intros -> ->. rewrite Hrun. reflexivity.
Qed.

(** X8. printMemOffset writes its displacement whatever its value, zero
    included, after the optional segment prefix; it prints what
    printMemReference prints for a group with neither base nor index and the
    same displacement and segment. *)
Theorem printMemOffset_as_register_free_reference
    (MI MI' : MCInst MCExpr) (Op Op' : N)
    (Disp : MCOperand MCExpr) (Seg : N) (st : PrinterState) (text : string) :
  operand MI Op = Some Disp ->
  operand MI (u32 (Op + 1)) = Some (Reg Seg) ->
  (exists d, Disp = Imm d /\ text = formatImm d) \/
  (exists E, Disp = Expr E /\ text = printExpr E) ->
  printMemOffset MI Op st =
    Returned tt (emit st (markup "<mem:" ++ segmentText Seg ++ text ++ markup ">"))
  /\ (operand MI' (u32 (Op' + AddrBaseReg)) = Some (Reg 0) ->
      operand MI' (u32 (Op' + AddrIndexReg)) = Some (Reg 0) ->
      operand MI' (u32 (Op' + AddrDisp)) = Some Disp ->
      operand MI' (u32 (Op' + AddrSegmentReg)) = Some (Reg Seg) ->
      printMemReference MI' Op' st = printMemOffset MI Op st).
Proof.
  intros Hd Hg Hdisp.
  pose proof (printMemOffset_text _ _ _ _ st _ Hd Hg Hdisp) as Hrun.
  split; [exact Hrun|].
  intros Hb' Hi' Hd' Hg'. rewrite Hrun.
  apply (printMemReference_no_registers _ _ Disp); assumption.
Qed.

(** X9. printSTiRegOperand prints the register ST0 as %st(0), whatever the
    name table holds for it, and any other register as printOperand does. *)
Theorem printSTiRegOperand_overrides_ST0
    (MI : MCInst MCExpr) (OpNo RegNo : N) (st : PrinterState) :
  operand MI OpNo = Some (Reg RegNo) ->
  (RegNo = ST0 ->
   printSTiRegOperand MI OpNo st =
     Returned tt (emit st (markup "<reg:" ++ "%st(0)" ++ markup ">")))
  /\ (RegNo <> ST0 -> printSTiRegOperand MI OpNo st = printOperand MI OpNo st).
Proof.
  intros H.
  assert (Hrun : printSTiRegOperand MI OpNo st =
                 if (RegNo =? ST0)%N
                 then Returned tt (emit st (markup "<reg:" ++ "%st(0)" ++ markup ">"))
                 else printRegName RegNo st).
  { unfold printSTiRegOperand, getOperand. rewrite H.
    unfold getReg. unfold bind, ret. cbv beta iota.
    destruct (RegNo =? ST0)%N; reflexivity. }
  split.
  - intros ->. now rewrite Hrun, N.eqb_refl.
  - intros Hne. apply N.eqb_neq in Hne. rewrite Hrun, Hne.
    now rewrite (printOperand_Reg _ _ _ _ H).
Qed.

(** X10. With markup off, printSrcIdx with a segment register named es
    prints what printDstIdx prints: the destination-index form is the
    source-index form with that segment fixed. *)
Theorem printSrcIdx_es_is_printDstIdx
    (MI : MCInst MCExpr) (Op Seg : N) (st : PrinterState) :
  UseMarkup = false ->
  operand MI (u32 (Op + 1)) = Some (Reg Seg) ->
  Seg <> 0%N ->
  getRegisterName Seg = "es" ->
  printSrcIdx MI Op st = printDstIdx MI Op st.
Proof.
  intros Hm Hs Hne Hname.
  assert (Hsrc : printSrcIdx MI Op st =
                 (printOperand MI Op ;; write ")" ;; write (markup ">"))
                   (emit st (markup "<mem:" ++ segmentText Seg ++ "("))).
  { unfold printSrcIdx. unfold bind at 1. unfold write at 1.
    unfold bind at 1. rewrite (printOptionalSegReg_Reg _ _ _ _ Hs).
    unfold bind at 1. unfold write at 1.
    now rewrite !emit_emit. }
  assert (Hdst : printDstIdx MI Op st =
                 (printOperand MI Op ;; write ")" ;; write (markup ">"))
                   (emit st (markup "<mem:" ++ "%es:("))).
  { unfold printDstIdx. unfold bind at 1. unfold write at 1.
    unfold bind at 1. unfold write at 1.
    now rewrite emit_emit. }
  rewrite Hsrc, Hdst.
  unfold segmentText, regText, markup. apply N.eqb_neq in Hne.
  rewrite Hne, Hm, Hname. reflexivity.
Qed.

(** X11. The hex comment of a negative immediate shows its two's
    complement at the width chosen, without further sign bits: the value plus
    2^16 down to -32768, plus 2^32 down to -2^31, plus 2^64 below. *)
Theorem printOperand_negative_hex_comment
    (MI : MCInst MCExpr) (OpNo : N) (v : Z) (c : string) (st : PrinterState) :
  operand MI OpNo = Some (Imm v) ->
  CommentStream st = Some c ->
  HasCustomInstComment st = false ->
  let commented (digits : Z) :=
    printOperand MI OpNo st =
    Returned tt (annotate (emit st (immText v)) (format_imm_hex (Z.to_N digits))) in
  ((- 2 ^ 15 <= v < -256)%Z -> commented (v + 2 ^ 16)%Z) /\
  ((- 2 ^ 31 <= v < - 2 ^ 15)%Z -> commented (v + 2 ^ 32)%Z) /\
  ((- 2 ^ 63 <= v < - 2 ^ 31)%Z -> commented (v + 2 ^ 64)%Z).
Proof.
  intros H Hc Hf commented. subst commented. cbv beta.
  rewrite (printOperand_Imm _ _ _ _ H).
  unfold commentEmitted, outsideSmallRange, hexComment, hexWidth, int16_t, int32_t.
  rewrite Hc, Hf. simpl negb. powers.
  repeat split; intros Hv;
    (replace ((v >? 255)%Z || (v <? -256)%Z) with true
       by (symmetry; apply orb_true_iff; right; apply Z.ltb_lt; lia));
    simpl andb; cbv iota;
    repeat match goal with
           | |- context [(?a =? ?b)%Z] => destruct (Z.eqb_spec a b)
           end; powers;
    try (exfalso; Z.div_mod_to_equations; lia);
    do 4 f_equal; Z.div_mod_to_equations; lia.
Qed.

End Relations.

Lemma printU8Imm_as_printOperand_witness :
  let MI := mkMCInst (OtherOpcode 0) [Imm (-1)%Z] in
  let MI' := mkMCInst (OtherOpcode 0) [Imm 255%Z] in
  let st := mkState "" (Some "") false in
  operand MI 0 = Some (Imm (MCExpr:=string) (-1)%Z) /\
  operand MI' 0 = Some (Imm (MCExpr:=string) (Z.land (-1) 255)) /\
  printU8Imm (R:=sampleRenderers) MI 0 st = printOperand (R:=sampleRenderers) MI' 0 st /\
  printU8Imm (R:=sampleRenderers) MI 0 st = Returned tt (mkState "$255" (Some "") false).
Proof.
  cbv zeta. split; [reflexivity|]. split; [reflexivity|]. split; [|reflexivity].
  exact (proj1 (printU8Imm_as_printOperand (R:=sampleRenderers)
                  (mkMCInst (OtherOpcode 0) [Imm (-1)%Z])
                  (mkMCInst (OtherOpcode 0) [Imm 255%Z]) 0 (-1)
                  (mkState "" (Some "") false) eq_refl eq_refl)).
Defined.

Lemma printMemReference_expr_displacement_witness :
  let MI := mkMCInst (OtherOpcode 0) [Reg 1; Imm 1%Z; Reg 0; Expr "sym"; Reg 0] in
  let st := mkState "" None false in
  memoryGroup (MCExpr:=string) MI 0 (Reg 1) (Imm 1%Z) (Reg 0) (Expr "sym") (Reg 0) /\
  printMemReference (R:=sampleRenderers) MI 0 st =
    Returned tt (mkState "sym(%rax)" None false).
Proof.
  assert (Hg : memoryGroup (MCExpr:=string)
                 (mkMCInst (OtherOpcode 0) [Reg 1; Imm 1%Z; Reg 0; Expr "sym"; Reg 0]) 0
                 (Reg 1) (Imm 1%Z) (Reg 0) (Expr "sym") (Reg 0))
    by (repeat split).
  split; [exact Hg|].
  exact (proj1 (printMemReference_expr_displacement (R:=sampleRenderers) _ _ _ _ _ _ _
                  (mkState "" None false) Hg)).
Defined.

Lemma printMemOffset_as_register_free_reference_witness :
  let MI := mkMCInst (OtherOpcode 0) [Imm 0%Z; Reg 8] in
  let MI' := mkMCInst (OtherOpcode 0) [Reg 0; Imm 1%Z; Reg 0; Imm 0%Z; Reg 8] in
  let st := mkState "" None false in
  operand MI 0 = Some (Imm (MCExpr:=string) 0%Z) /\
  operand MI 1 = Some (Reg (MCExpr:=string) 8) /\
  printMemOffset (R:=sampleRenderers) MI 0 st = Returned tt (mkState "%fs:0" None false) /\
  printMemReference (R:=sampleRenderers) MI' 0 st = printMemOffset (R:=sampleRenderers) MI 0 st.
Proof.
  cbv zeta. split; [reflexivity|]. split; [reflexivity|].
  destruct (printMemOffset_as_register_free_reference (R:=sampleRenderers)
              (mkMCInst (OtherOpcode 0) [Imm 0%Z; Reg 8])
              (mkMCInst (OtherOpcode 0) [Reg 0; Imm 1%Z; Reg 0; Imm 0%Z; Reg 8])
              0 0 (Imm 0%Z) 8 (mkState "" None false) (formatDec 0)
              eq_refl eq_refl
              (or_introl (ex_intro _ 0%Z (conj eq_refl eq_refl)))) as (Htext & Hsame).
  split; [exact Htext|].
  exact (Hsame eq_refl eq_refl eq_refl eq_refl).
Defined.

Lemma printSTiRegOperand_overrides_ST0_witness :
  let MI := mkMCInst (OtherOpcode 0) [Reg 15; Reg 9] in
  let st := mkState "" None false in
  operand MI 0 = Some (Reg (MCExpr:=string) 15) /\
  printSTiRegOperand (R:=sampleRenderers) MI 0 st =
    Returned tt (mkState "%st(0)" None false) /\
  printOperand (R:=sampleRenderers) MI 0 st = Returned tt (mkState "%st" None false) /\
  printSTiRegOperand (R:=sampleRenderers) MI 1 st = printOperand (R:=sampleRenderers) MI 1 st.
Proof.
  cbv zeta. split; [reflexivity|].
  split; [|split; [reflexivity|]].
  - exact (proj1 (printSTiRegOperand_overrides_ST0 (R:=sampleRenderers)
                    (mkMCInst (OtherOpcode 0) [Reg 15; Reg 9]) 0 15
                    (mkState "" None false) eq_refl) eq_refl).
  - apply (proj2 (printSTiRegOperand_overrides_ST0 (R:=sampleRenderers)
                    (mkMCInst (OtherOpcode 0) [Reg 15; Reg 9]) 1 9
                    (mkState "" None false) eq_refl)).
    discriminate.
Defined.

Lemma printSrcIdx_es_is_printDstIdx_witness :
  let MI := mkMCInst (OtherOpcode 0) [Reg 5; Reg 7] in
  let st := mkState "" None false in
  printSrcIdx (R:=sampleRenderers) MI 0 st = printDstIdx (R:=sampleRenderers) MI 0 st /\
  printDstIdx (R:=sampleRenderers) MI 0 st = Returned tt (mkState "%es:(%rsi)" None false).
Proof.
  cbv zeta. split; [|reflexivity].
  apply (printSrcIdx_es_is_printDstIdx (R:=sampleRenderers)
           (mkMCInst (OtherOpcode 0) [Reg 5; Reg 7]) 0 7 (mkState "" None false));
    [reflexivity | reflexivity | discriminate | reflexivity].
Defined.

Lemma printOperand_negative_hex_comment_witness :
  let MI := mkMCInst (OtherOpcode 0) [Imm (-300)%Z] in
  let st := mkState "" (Some "") false in
  (- 2 ^ 15 <= -300 < -256)%Z /\
  printOperand (R:=sampleRenderers) MI 0 st =
    Returned tt (mkState "$-300" (Some ("imm = 0xFED4" ++ newline)) false).
Proof.
  cbv zeta.
  assert (Hv : (- 2 ^ 15 <= -300 < -256)%Z) by lia.
  split; [exact Hv|].
  exact (proj1 (printOperand_negative_hex_comment (R:=sampleRenderers)
                  (mkMCInst (OtherOpcode 0) [Imm (-300)%Z]) 0 (-300) ""
                  (mkState "" (Some "") false) eq_refl eq_refl eq_refl) Hv).
Defined.

(** ** The resolver and the driver *)

Section ResolverAndDriver.
Context {MCExpr : Type} {R : Renderers MCExpr} {C : Collaborators MCExpr}.

(** A sequence whose first routine is left open, continued on its result. *)
Lemma bind_cont {A B} (m : M A) (k k' : A -> M B) (s : PrinterState) :
  (forall a s1, m s = Returned a s1 -> k a s1 = k' a s1) ->
  bind m k s = bind m k' s.
Proof.
  intros H. unfold bind. destruct (m s) as [a s1|d s1]; [now apply H | reflexivity].
Qed.

(** X12. A false answer of the resolver is given before anything is written:
    the state is the one it was called in, and the trailing operand was not a
    legal immediate of the instruction's group.  Instructions outside both
    groups, without operands or with a trailing operand that is no immediate
    are all answered so, none makes the resolver abort. *)
Theorem printVecCompareInstr_false_is_untouched (MI : MCInst MCExpr) (st : PrinterState) :
  (forall st', printVecCompareInstr MI st = Returned false st' ->
     st' = st /\ trailingImmLegal MI = false)
  /\ (isVPCOM (getOpcode MI) || isVPCMP (getOpcode MI) = false ->
      printVecCompareInstr MI st = Returned false st)
  /\ (getNumOperands MI = 0%N -> printVecCompareInstr MI st = Returned false st)
  /\ (forall Last, operand MI (getNumOperands MI - 1) = Some Last -> isImm Last = false ->
      printVecCompareInstr MI st = Returned false st).
Proof.
  split; [|split; [|split]].
  - intros st' H. destruct (trailingImmLegal MI) eqn:E.
    + pose proof (printVecCompareInstr_never_false_when_legal _ _ _ _ E H). discriminate.
    + rewrite (printVecCompareInstr_declines _ _ E) in H. injection H as <-. now split.
  - intros Hout. apply orb_false_iff in Hout. destruct Hout as (HA & HB).
    apply printVecCompareInstr_declines. unfold trailingImmLegal. rewrite HA, HB.
    destruct (trailingOperand MI) as [[| | v | | |]|]; reflexivity.
  - intros Hn. apply printVecCompareInstr_declines.
    unfold trailingImmLegal, trailingOperand. now rewrite Hn.
  - intros Last HLast Himm. apply printVecCompareInstr_declines.
    unfold trailingImmLegal, trailingOperand.
    destruct (getNumOperands MI =? 0)%N; [reflexivity|].
    rewrite HLast. destruct Last; first [reflexivity | discriminate Himm].
Qed.

(** X13. An instruction of the first group with a legal immediate is
    printed source first, destination last: operand 2, operand 1, operand 0,
    separated by a comma and a space, after the tab and the mnemonic.  With a
    memory source operand 2 goes through the 128-bit memory formatter,
    whatever vector-length flags the descriptor holds; no mask and no
    broadcast annotation is ever written. *)
Theorem printVecCompareInstr_VPCOM_operand_order
    (MI : MCInst MCExpr) (ImmV : Z) (r0 r1 : N) (st : PrinterState) :
  isVPCOM (getOpcode MI) = true ->
  trailingOperand MI = Some (Imm ImmV) ->
  legalVPCOMImm ImmV = true ->
  operand MI 0 = Some (Reg r0) ->
  operand MI 1 = Some (Reg r1) ->
  (forall r2, operand MI 2 = Some (Reg r2) ->
     N.land (TSFlags (getOpcode MI)) FormMask <> MRMSrcMem ->
     printVecCompareInstr MI st =
       (write tab ;;
        printVPCOMMnemonic MI ;;
        write (regText r2 ++ ", " ++ regText r1 ++ ", " ++ regText r0) ;;
        ret true) st)
  /\ (N.land (TSFlags (getOpcode MI)) FormMask = MRMSrcMem ->
      printVecCompareInstr MI st =
        (write tab ;;
         printVPCOMMnemonic MI ;;
         printxmmwordmem MI 2 ;;
         write (", " ++ regText r1 ++ ", " ++ regText r0) ;;
         ret true) st).
Proof.
  intros Hop Hlast Hlegal H0 H1.
  rewrite printVecCompareInstr_trailing, Hlast, Hop, Hlegal.
  unfold printVPCOMOperands. split.
  - intros r2 H2 Hform. apply N.eqb_neq in Hform. rewrite Hform.
    apply bind_cont; intros [] s1 _.
    apply bind_cont; intros [] s2 _.
    rewrite (bind_Returned _ _ _ _ _ (printOperand_Reg _ _ _ s2 H2)).
    unfold bind at 1. unfold write at 1.
    rewrite (bind_Returned _ _ _ _ _ (printOperand_Reg _ _ _ _ H1)).
    unfold bind at 1. unfold write at 1.
    rewrite (bind_Returned _ _ _ _ _ (printOperand_Reg _ _ _ _ H0)).
    unfold bind, write, ret. now rewrite !emit_emit, ?append_assoc.
  - intros Hform. rewrite Hform, N.eqb_refl.
    apply bind_cont; intros [] s1 _.
    apply bind_cont; intros [] s2 _.
    apply bind_cont; intros [] s3 _.
    unfold bind at 1. unfold write at 1.
    rewrite (bind_Returned _ _ _ _ _ (printOperand_Reg _ _ _ _ H1)).
    unfold bind at 1. unfold write at 1.
    rewrite (bind_Returned _ _ _ _ _ (printOperand_Reg _ _ _ _ H0)).
    unfold bind, write, ret. now rewrite !emit_emit, ?append_assoc.
Qed.

(** X14. The register form of the second group, with a legal immediate:
    the two sources are printed last source first, then the destination,
    and with EVEX_K the mask register, operand 1, follows in braces.  The
    broadcast, width and vector-length flags play no part. *)
Theorem printVecCompareInstr_VPCMP_register_form
    (MI : MCInst MCExpr) (ImmV : Z) (dst : N) (st : PrinterState) :
  isVPCMP (getOpcode MI) = true ->
  trailingOperand MI = Some (Imm ImmV) ->
  legalVPCMPImm ImmV = true ->
  N.land (TSFlags (getOpcode MI)) FormMask <> MRMSrcMem ->
  operand MI 0 = Some (Reg dst) ->
  (hasFlag (TSFlags (getOpcode MI)) EVEX_K = false ->
   forall src1 src2,
     operand MI 1 = Some (Reg src1) -> operand MI 2 = Some (Reg src2) ->
     printVecCompareInstr MI st =
       (write tab ;;
        printVPCMPMnemonic MI ;;
        write (regText src2 ++ ", " ++ regText src1 ++ ", " ++ regText dst) ;;
        ret true) st)
  /\ (hasFlag (TSFlags (getOpcode MI)) EVEX_K = true ->
      forall mask src1 src2,
        operand MI 1 = Some (Reg mask) -> operand MI 2 = Some (Reg src1) ->
        operand MI 3 = Some (Reg src2) ->
        printVecCompareInstr MI st =
          (write tab ;;
           printVPCMPMnemonic MI ;;
           write (regText src2 ++ ", " ++ regText src1 ++ ", " ++ regText dst
                  ++ " {" ++ regText mask ++ "}") ;;
           ret true) st).
Proof.
  intros Hop Hlast Hlegal Hform H0. apply N.eqb_neq in Hform.
  rewrite printVecCompareInstr_trailing, Hlast, (isVPCMP_not_VPCOM _ Hop), Hop, Hlegal.
  unfold printVPCMPFrom, printVPCMPSource. cbv zeta. rewrite Hform.
  assert (H3 : dec32 3 = 2%N) by reflexivity.
  assert (H2 : dec32 2 = 1%N) by reflexivity.
  assert (H1 : dec32 1 = 0%N) by reflexivity.
  split.
  - intros HK src1 src2 Hs1 Hs2. rewrite HK, H2, H1.
    apply bind_cont; intros [] s1 _.
    apply bind_cont; intros [] s2 _.
    rewrite (bind_Returned _ _ _ _ _ (printOperand_Reg _ _ _ s2 Hs2)).
    unfold bind at 1. unfold write at 1.
    rewrite (bind_Returned _ _ _ _ _ (printOperand_Reg _ _ _ _ Hs1)).
    unfold bind at 1. unfold write at 1.
    rewrite (bind_Returned _ _ _ _ _ (printOperand_Reg _ _ _ _ H0)).
    simpl. unfold bind, write, ret. now rewrite !emit_emit, ?append_assoc.
  - intros HK mask src1 src2 Hm Hs1 Hs2. rewrite HK, H3, H2.
    apply bind_cont; intros [] s1 _.
    apply bind_cont; intros [] s2 _.
    rewrite (bind_Returned _ _ _ _ _ (printOperand_Reg _ _ _ s2 Hs2)).
    unfold bind at 1. unfold write at 1.
    rewrite (bind_Returned _ _ _ _ _ (printOperand_Reg _ _ _ _ Hs1)).
    unfold bind at 1. unfold write at 1.
    rewrite (bind_Returned _ _ _ _ _ (printOperand_Reg _ _ _ _ H0)).
    change (0 <? 1)%N with true. cbv iota.
    unfold bind at 1. unfold bind at 1. unfold write at 1. cbv beta iota.
    rewrite (bind_Returned _ _ _ _ _ (printOperand_Reg _ _ _ _ Hm)).
    unfold bind, write, ret. now rewrite !emit_emit, ?append_assoc.
Qed.

(** X15. The memory form of the second group without broadcast: the source
    goes through the 512-bit memory formatter when EVEX_L2 is set, whether or
    not VEX_L is, through the 256-bit one under VEX_L alone and through the
    128-bit one under neither; VEX_W plays no part and no annotation follows
    the reference. *)
Theorem printVecCompareInstr_VPCMP_memory_width
    (MI : MCInst MCExpr) (ImmV : Z) (st : PrinterState) :
  isVPCMP (getOpcode MI) = true ->
  trailingOperand MI = Some (Imm ImmV) ->
  legalVPCMPImm ImmV = true ->
  N.land (TSFlags (getOpcode MI)) FormMask = MRMSrcMem ->
  hasFlag (TSFlags (getOpcode MI)) EVEX_B = false ->
  let Desc := TSFlags (getOpcode MI) in
  let CurOp : N := if hasFlag Desc EVEX_K then 3%N else 2%N in
  printVecCompareInstr MI st =
    printVPCMPWith
      (if hasFlag Desc EVEX_L2 then printzmmwordmem
       else if hasFlag Desc VEX_L then printymmwordmem
       else printxmmwordmem) MI CurOp st.
Proof.
  intros Hop Hlast Hlegal Hform Hb Desc CurOp.
  rewrite printVecCompareInstr_trailing, Hlast, (isVPCMP_not_VPCOM _ Hop), Hop, Hlegal.
  subst CurOp Desc.
  unfold printVPCMPFrom, printVPCMPSource, printVPCMPWith. cbv zeta.
  rewrite Hform, N.eqb_refl, Hb.
  destruct (hasFlag (TSFlags (getOpcode MI)) EVEX_L2); [reflexivity|].
  destruct (hasFlag (TSFlags (getOpcode MI)) VEX_L); reflexivity.
Qed.

(** X16. The order in which printInst tries its printers, for an
    instruction that is none of the two mode-dependent exceptions: a match of
    the alias printer ends the instruction, so that neither the resolver nor
    the generated printer runs, even for a vector compare with a legal
    immediate; a true answer of the resolver ends it likewise; and after a
    false answer the generated printer starts from the very state the alias
    printer left.  In each case the annotation follows. *)
Theorem printInst_dispatch_order
    (MI : MCInst MCExpr) (Annot : string) (STI : FeatureBitset) (st st1 : PrinterState) :
  isCALLpcrel32 (getOpcode MI) && STI Mode64Bit = false ->
  isDATA16_PREFIX (getOpcode MI) && STI Mode16Bit = false ->
  (emitInstComments MI ;; printInstFlags MI) st = Returned tt st1 ->
  (forall st2, printAliasInstr MI st1 = Returned true st2 ->
     printInst MI Annot STI st = printAnnotation Annot st2)
  /\ (forall st2 st3,
        printAliasInstr MI st1 = Returned false st2 ->
        printVecCompareInstr MI st2 = Returned true st3 ->
        printInst MI Annot STI st = printAnnotation Annot st3)
  /\ (forall st2 st3,
        printAliasInstr MI st1 = Returned false st2 ->
        printVecCompareInstr MI st2 = Returned false st3 ->
        st3 = st2 /\
        printInst MI Annot STI st = (printInstruction MI ;; printAnnotation Annot) st2).
Proof.
  intros Hcall Hdata Hpre.
  apply bind_inv in Hpre. destruct Hpre as (u & s0 & Hcomments & Hflags).
  assert (Hhead : printInst MI Annot STI st =
            ((alias <- printAliasInstr MI ;;
              if alias : bool then ret tt
              else compare <- printVecCompareInstr MI ;;
                   if compare : bool then ret tt else printInstruction MI) ;;
             printAnnotation Annot) st1).
  { unfold printInst. rewrite Hcall, Hdata.
    rewrite (bind_Returned _ _ _ _ _ Hcomments), (bind_Returned _ _ _ _ _ Hflags).
    reflexivity. }
  rewrite Hhead. split; [|split].
  - intros st2 Halias. unfold bind. rewrite Halias. reflexivity.
  - intros st2 st3 Halias Hcompare. unfold bind. rewrite Halias, Hcompare. reflexivity.
  - intros st2 st3 Halias Hcompare.
    assert (st3 = st2) as ->.
    { destruct (trailingImmLegal MI) eqn:E.
      - pose proof (printVecCompareInstr_never_false_when_legal _ _ _ _ E Hcompare).
        discriminate.
      - rewrite (printVecCompareInstr_declines _ _ E) in Hcompare. now injection Hcompare. }
    split; [reflexivity|].
    unfold bind. rewrite Halias, Hcompare. reflexivity.
Qed.

(** X17. The two mode-dependent exceptions of printInst come before every
    other printer.  CALLpcrel32 with Mode64Bit set is printed as a tab,
    callq, a tab and operand 0 as a pc-relative immediate, also when
    Mode16Bit is set as well; DATA16_PREFIX with Mode16Bit set is printed as a
    tab and data32, with no operand.  Neither consults the alias printer, the
    resolver or the generated printer, and the annotation follows both. *)
Theorem printInst_mode_exceptions
    (MI : MCInst MCExpr) (Annot : string) (STI : FeatureBitset) (st st1 : PrinterState) :
  (emitInstComments MI ;; printInstFlags MI) st = Returned tt st1 ->
  (getOpcode MI = CALLpcrel32 -> STI Mode64Bit = true ->
     printInst MI Annot STI st =
       (printPCRelImm MI 0 ;; printAnnotation Annot) (emit st1 (tab ++ "callq" ++ tab)))
  /\ (getOpcode MI = DATA16_PREFIX -> STI Mode16Bit = true ->
      printInst MI Annot STI st = printAnnotation Annot (emit st1 (tab ++ "data32"))).
Proof.
  intros Hpre.
  apply bind_inv in Hpre. destruct Hpre as (u & s0 & Hcomments & Hflags).
  split.
  - intros Hopc H64. unfold printInst. rewrite Hopc, H64.
    rewrite (bind_Returned _ _ _ _ _ Hcomments), (bind_Returned _ _ _ _ _ Hflags).
    reflexivity.
  - intros Hopc H16. unfold printInst. rewrite Hopc, H16.
    rewrite (bind_Returned _ _ _ _ _ Hcomments), (bind_Returned _ _ _ _ _ Hflags).
    reflexivity.
Qed.

End ResolverAndDriver.

Lemma printVecCompareInstr_false_is_untouched_witness :
  let MI := mkMCInst (OtherOpcode 0) [Reg 9; Reg 10; Imm 3%Z] in
  let st := mkState "so far" None false in
  isVPCOM (getOpcode MI) || isVPCMP (getOpcode MI) = false /\
  printVecCompareInstr (R:=sampleRenderers) (C:=sampleCollaborators) MI st =
    Returned false st.
Proof.
  cbv zeta. split; [reflexivity|].
  exact (proj1 (proj2 (printVecCompareInstr_false_is_untouched
                         (R:=sampleRenderers) (C:=sampleCollaborators)
                         (mkMCInst (OtherOpcode 0) [Reg 9; Reg 10; Imm 3%Z])
                         (mkState "so far" None false))) eq_refl).
Defined.

Lemma printVecCompareInstr_VPCOM_operand_order_witness :
  let MI := mkMCInst VPCOMBri [Reg 9; Reg 10; Reg 11; Imm 2%Z] in
  let st := mkState "" None false in
  isVPCOM (getOpcode MI) = true /\
  trailingOperand MI = Some (Imm 2%Z) /\
  legalVPCOMImm 2 = true /\
  N.land (sampleTSFlags (getOpcode MI)) 127 <> 33%N /\
  printVecCompareInstr (R:=sampleRenderers) (C:=sampleCollaborators) MI st =
    Returned true (mkState (tab ++ "vpcomgtb" ++ tab ++ "%zmm1, %xmm1, %xmm0") None false).
Proof.
  cbv zeta.
  assert (Hform : N.land (sampleTSFlags VPCOMBri) 127 <> 33%N) by (vm_compute; discriminate).
  split; [reflexivity|]. split; [reflexivity|]. split; [reflexivity|].
  split; [exact Hform|].
  exact (proj1 (printVecCompareInstr_VPCOM_operand_order
                  (R:=sampleRenderers) (C:=sampleCollaborators)
                  (mkMCInst VPCOMBri [Reg 9; Reg 10; Reg 11; Imm 2%Z]) 2 9 10
                  (mkState "" None false) eq_refl eq_refl eq_refl eq_refl eq_refl)
               11%N eq_refl Hform).
Defined.

Lemma printVecCompareInstr_VPCMP_register_form_witness :
  let MI := mkMCInst VPCMPUDZrrik [Reg 13; Reg 14; Reg 11; Reg 12; Imm 5%Z] in
  let st := mkState "" None false in
  isVPCMP (getOpcode MI) = true /\
  trailingOperand MI = Some (Imm 5%Z) /\
  legalVPCMPImm 5 = true /\
  N.land (sampleTSFlags (getOpcode MI)) 127 <> 33%N /\
  hasFlag (sampleTSFlags (getOpcode MI)) 1024 = true /\
  printVecCompareInstr (R:=sampleRenderers) (C:=sampleCollaborators) MI st =
    Returned true
      (mkState (tab ++ "vpcmpnltud" ++ tab ++ "%zmm2, %zmm1, %k1 {%k2}") None false).
Proof.
  cbv zeta.
  assert (Hform : N.land (sampleTSFlags VPCMPUDZrrik) 127 <> 33%N) by (vm_compute; discriminate).
  split; [reflexivity|]. split; [reflexivity|]. split; [reflexivity|].
  split; [exact Hform|]. split; [reflexivity|].
  exact (proj2 (printVecCompareInstr_VPCMP_register_form
                  (R:=sampleRenderers) (C:=sampleCollaborators)
                  (mkMCInst VPCMPUDZrrik [Reg 13; Reg 14; Reg 11; Reg 12; Imm 5%Z]) 5 13
                  (mkState "" None false) eq_refl eq_refl eq_refl Hform eq_refl)
               eq_refl 14%N 11%N 12%N eq_refl eq_refl eq_refl).
Defined.

Lemma printVecCompareInstr_VPCMP_memory_width_witness :
  let MI := mkMCInst VPCMPDZ256rmi
              [Reg 13; Reg 10; Reg 1; Imm 1%Z; Reg 0; Imm 16%Z; Reg 0; Imm 1%Z] in
  let st := mkState "" None false in
  isVPCMP (getOpcode MI) = true /\
  trailingOperand MI = Some (Imm 1%Z) /\
  legalVPCMPImm 1 = true /\
  N.land (sampleTSFlags (getOpcode MI)) 127 = 33%N /\
  hasFlag (sampleTSFlags (getOpcode MI)) 2048 = false /\
  printVecCompareInstr (R:=sampleRenderers) (C:=sampleCollaborators) MI st =
    Returned true
      (mkState (tab ++ "vpcmpltd" ++ tab ++ "ymmword:16(%rax), %xmm1, %k1") None false).
Proof.
  cbv zeta.
  split; [reflexivity|]. split; [reflexivity|]. split; [reflexivity|].
  split; [reflexivity|]. split; [reflexivity|].
  exact (printVecCompareInstr_VPCMP_memory_width
           (R:=sampleRenderers) (C:=sampleCollaborators)
           (mkMCInst VPCMPDZ256rmi
              [Reg 13; Reg 10; Reg 1; Imm 1%Z; Reg 0; Imm 16%Z; Reg 0; Imm 1%Z]) 1
           (mkState "" None false) eq_refl eq_refl eq_refl eq_refl eq_refl).
Defined.

Lemma printInst_dispatch_order_witness :
  let MI := mkMCInst VPCOMBri [Reg 9; Reg 10; Reg 11; Imm 2%Z] in
  let MI' := mkMCInst VPCOMBri [Reg 9; Reg 10; Reg 11; Imm 8%Z] in
  let STI : FeatureBitset := fun _ => true in
  let st := mkState "" None false in
  printInst (R:=sampleRenderers) (C:=sampleCollaborators) MI "" STI st =
    Returned tt (mkState (tab ++ "vpcomgtb" ++ tab ++ "%zmm1, %xmm1, %xmm0") None false) /\
  printInst (R:=sampleRenderers) (C:=sampleCollaborators) MI' "" STI st =
    Returned tt (mkState (tab ++ "insn" ++ tab ++ "$8, %zmm1, %xmm1, %xmm0") None false).
Proof.
  cbv zeta. split.
  - exact (proj1 (proj2 (printInst_dispatch_order
                           (R:=sampleRenderers) (C:=sampleCollaborators)
                           (mkMCInst VPCOMBri [Reg 9; Reg 10; Reg 11; Imm 2%Z]) ""
                           (fun _ => true) (mkState "" None false) (mkState "" None false)
                           eq_refl eq_refl eq_refl))
                  (mkState "" None false)
                  (mkState (tab ++ "vpcomgtb" ++ tab ++ "%zmm1, %xmm1, %xmm0") None false)
                  eq_refl eq_refl).
  - exact (proj2 (proj2 (proj2 (printInst_dispatch_order
                           (R:=sampleRenderers) (C:=sampleCollaborators)
                           (mkMCInst VPCOMBri [Reg 9; Reg 10; Reg 11; Imm 8%Z]) ""
                           (fun _ => true) (mkState "" None false) (mkState "" None false)
                           eq_refl eq_refl eq_refl))
                  (mkState "" None false) (mkState "" None false)
                  eq_refl eq_refl)).
Defined.

Lemma printInst_mode_exceptions_witness :
  let call := mkMCInst CALLpcrel32 [Expr "target"] in
  let data := mkMCInst DATA16_PREFIX [] in
  let STI : FeatureBitset := fun _ => true in
  let st := mkState "" None false in
  printInst (R:=sampleRenderers) (C:=sampleCollaborators) call "" STI st =
    Returned tt (mkState (tab ++ "callq" ++ tab ++ "target") None false) /\
  printInst (R:=sampleRenderers) (C:=sampleCollaborators) data "" STI st =
    Returned tt (mkState (tab ++ "data32") None false).
Proof.
  cbv zeta. split.
  - exact (proj1 (printInst_mode_exceptions
                    (R:=sampleRenderers) (C:=sampleCollaborators)
                    (mkMCInst CALLpcrel32 [Expr "target"]) ""
                    (fun _ => true) (mkState "" None false) (mkState "" None false)
                    eq_refl) eq_refl eq_refl).
  - exact (proj2 (printInst_mode_exceptions
                    (R:=sampleRenderers) (C:=sampleCollaborators)
                    (mkMCInst DATA16_PREFIX []) ""
                    (fun _ => true) (mkState "" None false) (mkState "" None false)
                    eq_refl) eq_refl eq_refl).
Defined.

(** ** The driver never takes back text *)

Lemma keepsText_refl (s : PrinterState) : keepsText s s.
Proof.
  unfold keepsText. split; [exists ""; now rewrite append_nil_r|].
  destruct (CommentStream s); [exists ""; now rewrite append_nil_r | exact I].
Qed.

Lemma keepsText_trans (s1 s2 s3 : PrinterState) :
  keepsText s1 s2 -> keepsText s2 s3 -> keepsText s1 s3.
Proof.
  unfold keepsText. intros ((t1 & H1) & C1) ((t2 & H2) & C2).
  split; [exists (t1 ++ t2); now rewrite H2, H1, append_assoc|].
  destruct (CommentStream s1), (CommentStream s2), (CommentStream s3);
    try contradiction; try exact I.
  destruct C1 as (u1 & ->), C2 as (u2 & ->). exists (u1 ++ u2). now rewrite append_assoc.
Qed.

Lemma textKeeping_appendOnly {A} (m : M A) : appendOnly m -> textKeeping m.
Proof. intros H s. destruct (H s) as (Ho & _ & Hc). now split. Qed.

Lemma textKeeping_bind {A B} (m : M A) (k : A -> M B) :
  textKeeping m -> (forall a, textKeeping (k a)) -> textKeeping (bind m k).
Proof.
  intros Hm Hk s. specialize (Hm s). unfold bind.
  destruct (m s) as [a s1|d s1]; simpl in *; [|exact Hm].
  exact (keepsText_trans _ _ _ Hm (Hk a s1)).
Qed.

Section DriverKeepsText.
Context {MCExpr : Type} {R : Renderers MCExpr} {C : Collaborators MCExpr}.

Lemma textKeeping_emitInstComments (MI : MCInst MCExpr) :
  textKeeping (emitInstComments MI).
Proof.
  intros s. unfold emitInstComments.
  destruct (CommentStream s) as [c|] eqn:Hc.
  - destruct (EmitAnyX86InstComments MI) as [text emitted]. simpl.
    unfold keepsText, annotate. simpl. rewrite Hc. simpl.
    split; [exists ""; now rewrite append_nil_r | now exists text].
  - apply keepsText_refl.
Qed.

(** X18. printInst never takes back text: on every path, the two
    exceptions, the alias printer, the resolver and the generated printer,
    and whether it returns or aborts, the output stream and the comment
    stream still start with what they held before the call, and no comment
    stream has been attached or detached, provided the routines it calls
    outside this file behave so. *)
Theorem printInst_keeps_text
    (MI : MCInst MCExpr) (Annot : string) (STI : FeatureBitset) :
  ResolverCollaboratorsAppendOnly -> DriverCollaboratorsKeepText ->
  textKeeping (printInst MI Annot STI).
Proof.
  intros HR [Hflags Hpcrel Halias Hinstruction Hannotation].
  assert (Hresolver : appendOnly (printVecCompareInstr MI)).
  { destruct HR. pose proof (appendOnly_printOperand (R:=R)) as Hop.
    unfold printVecCompareInstr, postDecrement. grow. }
  unfold printInst.
  apply textKeeping_bind; [apply textKeeping_emitInstComments | intros _].
  apply textKeeping_bind; [apply Hflags | intros _].
  apply textKeeping_bind; [|intros _; apply Hannotation].
  destruct (isCALLpcrel32 (getOpcode MI) && STI Mode64Bit).
  - apply textKeeping_bind;
      [apply textKeeping_appendOnly, appendOnly_write | intros _; apply Hpcrel].
  - destruct (isDATA16_PREFIX (getOpcode MI) && STI Mode16Bit).
    + apply textKeeping_appendOnly, appendOnly_write.
    + apply textKeeping_bind; [apply Halias | intros [|]].
      * apply textKeeping_appendOnly, appendOnly_ret.
      * apply textKeeping_bind; [now apply textKeeping_appendOnly | intros [|]].
        -- apply textKeeping_appendOnly, appendOnly_ret.
        -- apply Hinstruction.
Qed.

End DriverKeepsText.

Lemma appendOnly_sampleOperandsDown (MI : MCInst string) (n : nat) :
  appendOnly (sampleOperandsDown MI n).
Proof.
  induction n as [|k IH]; simpl; [apply appendOnly_ret|].
  apply appendOnly_bind; [apply appendOnly_printOperand | intros _].
  apply appendOnly_bind; [destruct k; grow | intros _; exact IH].
Qed.

Lemma sampleCollaborators_keepText :
  DriverCollaboratorsKeepText (C:=sampleCollaborators).
Proof.
  constructor; simpl; intros; apply textKeeping_appendOnly.
  - apply appendOnly_ret.
  - unfold samplePCRelImm. grow.
  - apply appendOnly_ret.
  - apply appendOnly_bind; [apply appendOnly_write | intros _].
    apply appendOnly_sampleOperandsDown.
  - unfold sampleAnnotation. destruct Annot; [apply appendOnly_ret|].
    intros s. destruct (CommentStream s); [apply extends_annotate | apply extends_emit].
Qed.

Lemma printInst_keeps_text_witness :
  let MI := mkMCInst (OtherOpcode 1) [Reg 9; Reg 10; Imm 300%Z] in
  let st := mkState "before" (Some "notes") false in
  let st' := stateOf (printInst (R:=sampleRenderers) (C:=sampleCollaborators)
                        MI "remark" (fun _ => false) st) in
  ResolverCollaboratorsAppendOnly (C:=sampleCollaborators) /\
  DriverCollaboratorsKeepText (C:=sampleCollaborators) /\
  keepsText st st' /\
  HasCustomInstComment st' = true.
Proof.
  cbv zeta. split; [exact sampleCollaborators_appendOnly|].
  split; [exact sampleCollaborators_keepText|].
  split; [|reflexivity].
  apply (printInst_keeps_text (R:=sampleRenderers) (C:=sampleCollaborators)
           _ _ _ sampleCollaborators_appendOnly sampleCollaborators_keepText).
Defined.
